(** * pipeline-service-exporter: overhead and liveness analysis

    A shallow embedding of package [collector] (the gap reconstruction of
    [calculateGaps], the throttle detector, the overhead reconciler and the
    deadlock tracker) together with the properties stated about them.

    Conventions of the embedding:
    - [time.Time] is an instant counted in nanoseconds from Go's zero time,
      [time.Duration] a signed 64-bit count of nanoseconds;
    - [float64] is the IEEE 754 binary64 format of [SpecFloat];
    - Go maps are [gmap]s, maps to [struct{}] are [gset]s, a nil map is [None];
    - a nil pointer dereference is the outcome [Panicked];
    - calls of [ctrl.Log] are not part of the model. *)

From Stdlib Require Import ZArith Lia List Sorting.Sorted Permutation.
From Corelib Require Import SpecFloat.
From stdpp Require Import base option list gmap strings sets.

#[local] Set Warnings "-clear-no-such-hyp".

Local Open Scope string_scope.
Local Open Scope Z_scope.

(** ** Go's [time] package *)

Module GoTime.

(** Nanoseconds elapsed since the zero [Time] (January 1, year 1, UTC). *)
Definition Time := Z.
Definition Duration := Z.

Definition minDuration : Duration := - 2 ^ 63.
Definition maxDuration : Duration := 2 ^ 63 - 1.

Definition zero : Time := 0.
Definition IsZero (t : Time) : bool := t =? 0.
Definition Before (t u : Time) : bool := t <? u.
Definition After (t u : Time) : bool := u <? t.

(** [t.Sub(u)]: the difference, saturated to the range of [Duration]. *)
Definition Sub (t u : Time) : Duration :=
  let d := t - u in
  if d <? minDuration then minDuration
  else if maxDuration <? d then maxDuration
  else d.

(** [d.Milliseconds()]: integer division truncating toward zero. *)
Definition Milliseconds (d : Duration) : Z := Z.quot d 1000000.

Definition Millisecond : Duration := 1000000.
Definition Second : Duration := 1000 * Millisecond.
Definition Minute : Duration := 60 * Second.
Definition Add (t : Time) (d : Duration) : Time := t + d.

End GoTime.

(** ** Go's [float64] *)

Module Float64.

Definition float64 := spec_float.
Definition prec : Z := 53.
Definition emax : Z := 1024.

(** The conversion [float64(i)] of an integer, rounding to nearest even. *)
Definition of_int (i : Z) : float64 := binary_normalize prec emax i 0 false.

Definition zero : float64 := S754_zero false.
Definition add (x y : float64) : float64 := SFadd prec emax x y.
Definition div (x y : float64) : float64 := SFdiv prec emax x y.
Definition ltb (x y : float64) : bool := SFltb x y.
Definition gtb (x y : float64) : bool := SFltb y x.
Definition eqb (x y : float64) : bool := SFeqb x y.

End Float64.

Import GoTime Float64.

(** ** The objects read from the API server *)

(** [apis.Condition] with [corev1.ConditionStatus] kept as the string it is. *)
Record Condition := {
  Type_ : string;
  Status : string;
  Reason : string;
  Message : string;
}.

Definition ConditionSucceeded : string := "Succeeded".
Definition ConditionTrue : string := "True".
Definition ConditionFalse : string := "False".
Definition ConditionUnknown : string := "Unknown".

(** [GetCondition]: the first condition of the requested type, nil if none. *)
Definition GetCondition (t : string) (conds : list Condition) : option Condition :=
  List.find (fun c => String.eqb (Type_ c) t) conds.

(** The nil-tolerant methods of [*apis.Condition]. *)
Definition IsUnknown (c : option Condition) : bool :=
  match c with
  | None => true
  | Some c => String.eqb (Status c) ConditionUnknown
  end.

Definition IsFalse (c : option Condition) : bool :=
  match c with
  | None => false
  | Some c => String.eqb (Status c) ConditionFalse
  end.

(** A Go [map[string]string]; [None] is the nil map. *)
Definition Labels := option (gmap string string).

(** [v, ok := labels[k]]. *)
Definition label_lookup (l : Labels) (k : string) : option string :=
  match l with
  | None => None
  | Some m => m !! k
  end.

(** [v, _ := labels[k]]: the zero string when the key is absent. *)
Definition label_get (l : Labels) (k : string) : string :=
  default "" (label_lookup l k).

Record TaskRun := {
  tr_Name : string;
  tr_Namespace : string;
  tr_Labels : Labels;
  tr_CreationTimestamp : Time;
  tr_StartTime : option Time;
  tr_CompletionTime : option Time;
  tr_Conditions : list Condition;
}.

(** The zero value [v1.TaskRun{}]. *)
Definition emptyTaskRun : TaskRun := {|
  tr_Name := "";
  tr_Namespace := "";
  tr_Labels := None;
  tr_CreationTimestamp := GoTime.zero;
  tr_StartTime := None;
  tr_CompletionTime := None;
  tr_Conditions := [];
|}.

Record Param := {
  param_Name : string;
  param_StringVal : string;
}.

Record PipelineRef := {
  ref_Name : string;
  ref_Params : list Param;
}.

Record ChildStatusReference := {
  Kind : string;
  child_Name : string;
}.

Record PipelineRun := {
  pr_Name : string;
  pr_GenerateName : string;
  pr_Namespace : string;
  pr_Labels : Labels;
  pr_CreationTimestamp : Time;
  pr_PipelineRef : option PipelineRef;
  pr_ChildReferences : list ChildStatusReference;
  pr_StartTime : option Time;
  pr_CompletionTime : option Time;
  pr_Conditions : list Condition;
}.

Definition set_pr_Labels (l : Labels) (pr : PipelineRun) : PipelineRun := {|
  pr_Name := pr_Name pr;
  pr_GenerateName := pr_GenerateName pr;
  pr_Namespace := pr_Namespace pr;
  pr_Labels := l;
  pr_CreationTimestamp := pr_CreationTimestamp pr;
  pr_PipelineRef := pr_PipelineRef pr;
  pr_ChildReferences := pr_ChildReferences pr;
  pr_StartTime := pr_StartTime pr;
  pr_CompletionTime := pr_CompletionTime pr;
  pr_Conditions := pr_Conditions pr;
|}.

Definition set_pr_StartTime (s : option Time) (pr : PipelineRun) : PipelineRun := {|
  pr_Name := pr_Name pr;
  pr_GenerateName := pr_GenerateName pr;
  pr_Namespace := pr_Namespace pr;
  pr_Labels := pr_Labels pr;
  pr_CreationTimestamp := pr_CreationTimestamp pr;
  pr_PipelineRef := pr_PipelineRef pr;
  pr_ChildReferences := pr_ChildReferences pr;
  pr_StartTime := s;
  pr_CompletionTime := pr_CompletionTime pr;
  pr_Conditions := pr_Conditions pr;
|}.

(** ** The API client *)

(** Errors of [k8s.io/apimachinery/pkg/api/errors], by status reason. *)
Inductive StatusReason :=
  | StatusReasonNotFound
  | StatusReasonConflict
  | StatusReasonTimeout
  | StatusReasonInternalError.

Record error := {
  err_Reason : StatusReason;
  err_Message : string;
}.

Definition IsNotFound (e : error) : bool :=
  match err_Reason e with
  | StatusReasonNotFound => true
  | _ => false
  end.

(** [client.Client], restricted to the calls the collector makes.  [Get]
    either fills the object or returns an error and leaves it untouched;
    [Patch] answers with the error of the write, if any. *)
Record Client := {
  GetTaskRun : string -> string -> error + TaskRun;
  GetPipelineRun : string -> string -> error + PipelineRun;
  Patch : PipelineRun -> PipelineRun -> option error;
}.

(** ** Go's [strings.TrimSpace] and [sort.SliceStable] *)

Module GoStrings.

Definition bytes (l : list nat) : string :=
  List.fold_right (fun n s => String (Ascii.ascii_of_nat n) s) EmptyString l.

(** The UTF-8 encodings of the code points for which [unicode.IsSpace]
    holds: tab, line feed, vertical tab, form feed, carriage return, space,
    U+0085, U+00A0, U+1680, U+2000 to U+200A, U+2028, U+2029, U+202F,
    U+205F and U+3000. *)
Definition spaces : list (list nat) :=
  [ [9]; [10]; [11]; [12]; [13]; [32]; [194; 133]; [194; 160];
    [225; 154; 128];
    [226; 128; 128]; [226; 128; 129]; [226; 128; 130]; [226; 128; 131];
    [226; 128; 132]; [226; 128; 133]; [226; 128; 134]; [226; 128; 135];
    [226; 128; 136]; [226; 128; 137]; [226; 128; 138];
    [226; 128; 168]; [226; 128; 169]; [226; 128; 175]; [226; 129; 159];
    [227; 128; 128] ]%nat.

Fixpoint strip_prefix (p s : string) : option string :=
  match p, s with
  | EmptyString, _ => Some s
  | String a p', String b s' =>
      if Ascii.eqb a b then strip_prefix p' s' else None
  | String _ _, EmptyString => None
  end.

Fixpoint strip_any (ps : list string) (s : string) : option string :=
  match ps with
  | [] => None
  | p :: ps' =>
      match strip_prefix p s with
      | Some r => Some r
      | None => strip_any ps' s
      end
  end.

Fixpoint trim_left (ps : list string) (fuel : nat) (s : string) : string :=
  match fuel with
  | O => s
  | S fuel' =>
      match strip_any ps s with
      | Some r => trim_left ps fuel' r
      | None => s
      end
  end.

Definition rev_string (s : string) : string :=
  String.string_of_list_ascii (List.rev (String.list_ascii_of_string s)).

(** [TrimFunc(s, unicode.IsSpace)]: leading white space goes first, then
    trailing white space, found by reading the rest backwards. *)
Definition TrimSpace (s : string) : string :=
  let l := trim_left (List.map bytes spaces) (String.length s) s in
  let r := rev_string l in
  rev_string
    (trim_left (List.map (fun b => bytes (List.rev b)) spaces) (String.length r) r).

End GoStrings.

Section SliceStable.

Context {A : Type} (less : A -> A -> bool).

(** [x] preceded the elements of [l] in the input: it stays in front of
    every element that is not strictly less than it. *)
Fixpoint insert_stable (x : A) (l : list A) : list A :=
  match l with
  | [] => [x]
  | y :: l' => if less y x then y :: insert_stable x l' else x :: l
  end.

(** [sort.SliceStable(l, less)]: the stable sort of [l], which for a strict
    weak order [less] is the only arrangement a stable sort can return. *)
Definition SliceStable (l : list A) : list A :=
  List.fold_right insert_stable [] l.

End SliceStable.

(** ** common.go *)

Definition DEFAULT_THRESHOLD : float64 := Float64.of_int 300000.
Definition FILTER_THRESHOLD : string := "FILTER_THRESHOLD".
Definition NS_LABEL : string := "namespace".
Definition STATUS_LABEL : string := "status".
Definition SUCCEEDED : string := "succeded".
Definition FAILED : string := "failed".
Definition THROTTLED_LABEL : string := "pipelineservice.appstudio.io/throttled".

(** Label keys of [github.com/tektoncd/pipeline/pkg/apis/pipeline] and the
    reasons of [github.com/tektoncd/pipeline/pkg/pod]. *)
Definition TaskLabelKey : string := "tekton.dev/task".
Definition PipelineTaskLabelKey : string := "tekton.dev/pipelineTask".
Definition ClusterTaskLabelKey : string := "tekton.dev/clusterTask".
Definition TaskRunLabelKey : string := "tekton.dev/taskRun".
Definition ReasonExceededResourceQuota : string := "ExceededResourceQuota".
Definition ReasonExceededNodeResources : string := "ExceededNodeResources".

Definition nonempty (s : string) : bool := negb (String.eqb s "").

Fixpoint paramNamed (ps : list Param) : option string :=
  match ps with
  | [] => None
  | p :: ps' =>
      if String.eqb (GoStrings.TrimSpace (param_Name p)) "name"
      then Some (param_StringVal p)
      else paramNamed ps'
  end.

Definition pipelineRunPipelineRef (pr : PipelineRun) : string :=
  match pr_PipelineRef pr with
  | Some ref =>
      let val := ref_Name ref in
      if nonempty val then val
      else match paramNamed (ref_Params ref) with
           | Some v => v
           | None => val
           end
  | None =>
      if nonempty (pr_GenerateName pr) then pr_GenerateName pr
      else pr_Name pr
  end.

Definition taskRef (labels : Labels) : string :=
  let task := label_get labels TaskLabelKey in
  let pipelineTask := label_get labels PipelineTaskLabelKey in
  let clusterTask := label_get labels ClusterTaskLabelKey in
  let taskRun := label_get labels TaskRunLabelKey in
  if nonempty task then task
  else if nonempty pipelineTask then pipelineTask
  else if nonempty clusterTask then clusterTask
  else if nonempty taskRun then taskRun
  else "".

Definition calculateScheduledDuration (created started : Time) : float64 :=
  if IsZero created || IsZero started then Float64.of_int 0
  else Float64.of_int (Milliseconds (Sub started created)).

Definition skipPipelineRun (pr : PipelineRun) : bool :=
  if (List.length (pr_ChildReferences pr) <? 1)%nat then true
  else match pr_CompletionTime pr with
       | None => true
       | Some _ =>
           match label_lookup (pr_Labels pr) THROTTLED_LABEL with
           | Some _ => true
           | None => false
           end
       end.

(** [p.Time] for a pointer [p] that the code has found to be non-nil, either
    by a test or because it only keeps task runs with a completion time. *)
Definition deref (p : option Time) : Time := default GoTime.zero p.

Definition isTaskRunKind (kidRef : ChildStatusReference) : bool :=
  String.eqb (Kind kidRef) "TaskRun".

(** The loop of [sortTaskRunsForGapCalculations]; [None] is the early
    return on a failed [Get]. *)
Fixpoint fetchTaskRuns (oc : Client) (ns : string) (refs : list ChildStatusReference)
    (byCreate byCompletion : list TaskRun) : option (list TaskRun * list TaskRun) :=
  match refs with
  | [] => Some (byCreate, byCompletion)
  | kidRef :: rest =>
      if negb (isTaskRunKind kidRef) then
        fetchTaskRuns oc ns rest byCreate byCompletion
      else
        match GetTaskRun oc ns (child_Name kidRef) with
        | inl _ => None
        | inr kid =>
            fetchTaskRuns oc ns rest (byCreate ++ [kid])
              (match tr_CompletionTime kid with
               | Some _ => byCompletion ++ [kid]
               | None => byCompletion
               end)
        end
  end.

Definition createdBefore (a b : TaskRun) : bool :=
  Before (tr_CreationTimestamp a) (tr_CreationTimestamp b).

Definition completedAfter (a b : TaskRun) : bool :=
  After (deref (tr_CompletionTime a)) (deref (tr_CompletionTime b)).

Definition sortTaskRunsForGapCalculations (pr : PipelineRun) (oc : Client)
    : list TaskRun * list TaskRun * bool :=
  match fetchTaskRuns oc (pr_Namespace pr) (pr_ChildReferences pr) [] [] with
  | None => ([], [], true)
  | Some (sortedTaskRunsByCreateTimes, reverseOrderSortedTaskRunsByCompletionTimes) =>
      (SliceStable createdBefore sortedTaskRunsByCreateTimes,
       SliceStable completedAfter reverseOrderSortedTaskRunsByCompletionTimes,
       false)
  end.

Definition isTaskRunThrottled (tr : TaskRun) : bool :=
  match GetCondition ConditionSucceeded (tr_Conditions tr) with
  | Some succeedCondition =>
      if String.eqb (Status succeedCondition) ConditionUnknown then
        if String.eqb (Reason succeedCondition) ReasonExceededResourceQuota then true
        else if String.eqb (Reason succeedCondition) ReasonExceededNodeResources then true
        else false
      else false
  | None => false
  end.

(** The result [(throttled, throttledTaskRun, err)]. *)
Fixpoint isPipelineRunThrottled_loop (oc : Client) (ns : string)
    (refs : list ChildStatusReference) : bool * string * option error :=
  match refs with
  | [] => (false, "", None)
  | kidRef :: rest =>
      if negb (isTaskRunKind kidRef) then isPipelineRunThrottled_loop oc ns rest
      else
        match GetTaskRun oc ns (child_Name kidRef) with
        | inl err =>
            if negb (IsNotFound err) then (false, "", Some err)
            else if isTaskRunThrottled emptyTaskRun
                 then (true, tr_Name emptyTaskRun, None)
                 else isPipelineRunThrottled_loop oc ns rest
        | inr kid =>
            if isTaskRunThrottled kid then (true, tr_Name kid, None)
            else isPipelineRunThrottled_loop oc ns rest
        end
  end.

Definition isPipelineRunThrottled (pr : PipelineRun) (oc : Client)
    : bool * string * option error :=
  isPipelineRunThrottled_loop oc (pr_Namespace pr) (pr_ChildReferences pr).

Definition isPipelineRunGoing (pr : PipelineRun) : bool :=
  List.existsb isTaskRunKind (pr_ChildReferences pr).

(** [tagPipelineRunsWithTaskRunsGettingThrottled] returns the run as the
    caller sees it afterwards, the [Patch] calls it made, each as the pair of
    the changed copy and the base of [client.MergeFrom], and the error. *)
Definition tagPipelineRunsWithTaskRunsGettingThrottled (pr : PipelineRun) (oc : Client)
    : PipelineRun * list (PipelineRun * PipelineRun) * option error :=
  match isPipelineRunThrottled pr oc with
  | (_, _, Some err) => (pr, [], Some err)
  | (throttled, throttledTaskRun, None) =>
      let pr :=
        match pr_Labels pr with
        | None => set_pr_Labels (Some ∅) pr
        | Some _ => pr
        end in
      let previouslyLabelled :=
        match label_lookup (pr_Labels pr) THROTTLED_LABEL with
        | Some _ => true
        | None => false
        end in
      if throttled && negb previouslyLabelled then
        let changedPR := pr in
        let labels := default ∅ (pr_Labels changedPR) in
        let changedPR :=
          set_pr_Labels (Some (<[THROTTLED_LABEL := throttledTaskRun]> labels)) changedPR in
        match Patch oc changedPR pr with
        | Some err =>
            if IsNotFound err then (pr, [(changedPR, pr)], Some err)
            else (pr, [(changedPR, pr)], None)
        | None => (pr, [(changedPR, pr)], None)
        end
      else (pr, [], None)
  end.

Record GapEntry := {
  status : string;
  pipeline : string;
  completed : string;
  upcoming : string;
  gap : float64;
}.

(** The inner loop of [calculateGaps] over the completion-descending list:
    [acc] holds [completedID] and [timeToCalculateWith]. *)
Fixpoint scanCompleted (tr : TaskRun) (l : list TaskRun) (acc : string * Time)
    : string * Time :=
  match l with
  | [] => acc
  | tr2 :: rest =>
      if String.eqb (tr_Name tr2) (tr_Name tr) then scanCompleted tr rest acc
      else if negb (After (deref (tr_CompletionTime tr2)) (tr_CreationTimestamp tr))
      then (taskRef (tr_Labels tr2), deref (tr_CompletionTime tr2))
      else scanCompleted tr rest acc
  end.

Definition gapSince (tr : TaskRun) (t : Time) : float64 :=
  Float64.of_int (Milliseconds (Sub (tr_CreationTimestamp tr) t)).

(** The body of the loop of [calculateGaps] once the succeed condition of the
    run is known to be neither nil nor unknown. *)
Definition gapEntryFor (pr : PipelineRun) (prRef : string) (succeedCondition : option Condition)
    (firstKid : TaskRun) (reverseOrderSortedTaskRunsByCompletionTimes : list TaskRun)
    (index : nat) (tr : TaskRun) : GapEntry :=
  let status := if IsFalse succeedCondition then FAILED else SUCCEEDED in
  let entry completedID g :=
    {| status := status; pipeline := prRef; completed := completedID;
       upcoming := taskRef (tr_Labels tr); gap := g |} in
  if (index =? 0)%nat then
    entry prRef (gapSince tr (pr_CreationTimestamp pr))
  else if match tr_CompletionTime firstKid with
          | Some firstDone => After firstDone (tr_CreationTimestamp tr)
          | None => false
          end
  then entry prRef (gapSince tr (pr_CreationTimestamp pr))
  else
    let start :=
      match last reverseOrderSortedTaskRunsByCompletionTimes with
      | Some trToCalculateWith =>
          (taskRef (tr_Labels trToCalculateWith),
           deref (tr_CompletionTime trToCalculateWith))
      | None => (prRef, pr_CreationTimestamp pr)
      end in
    let '(completedID, timeToCalculateWith) :=
      scanCompleted tr reverseOrderSortedTaskRunsByCompletionTimes start in
    entry completedID (gapSince tr timeToCalculateWith).

Fixpoint calculateGaps_loop (pr : PipelineRun) (prRef : string) (firstKid : TaskRun)
    (reverseOrderSortedTaskRunsByCompletionTimes : list TaskRun)
    (index : nat) (l : list TaskRun) (gapEntries : list GapEntry) : list GapEntry :=
  match l with
  | [] => gapEntries
  | tr :: rest =>
      let succeedCondition := GetCondition ConditionSucceeded (pr_Conditions pr) in
      let gapEntries :=
        match succeedCondition with
        | None => gapEntries
        | Some _ =>
            if IsUnknown succeedCondition then gapEntries
            else (gapEntries ++
                  [gapEntryFor pr prRef succeedCondition firstKid
                     reverseOrderSortedTaskRunsByCompletionTimes index tr])%list
        end in
      calculateGaps_loop pr prRef firstKid reverseOrderSortedTaskRunsByCompletionTimes
        (S index) rest gapEntries
  end.

Definition calculateGaps (pr : PipelineRun)
    (sortedTaskRunsByCreateTimes reverseOrderSortedTaskRunsByCompletionTimes : list TaskRun)
    : list GapEntry :=
  let prRef := pipelineRunPipelineRef pr in
  match sortedTaskRunsByCreateTimes with
  | [] => []
  | firstKid :: _ =>
      calculateGaps_loop pr prRef firstKid reverseOrderSortedTaskRunsByCompletionTimes
        0 sortedTaskRunsByCreateTimes []
  end.

Section Threshold.

(** [os.Getenv] and [strconv.ParseFloat(s, 64)], the latter with [None]
    for a returned error. *)
Variable Getenv : string -> string.
Variable ParseFloat : string -> option float64.

Definition threshold : float64 :=
  let thresholdStr := Getenv FILTER_THRESHOLD in
  if nonempty thresholdStr then
    match ParseFloat thresholdStr with
    | None => DEFAULT_THRESHOLD
    | Some thresholdOverride => thresholdOverride
    end
  else DEFAULT_THRESHOLD.

Definition filter (numerator denominator : float64) : bool :=
  if Float64.gtb numerator Float64.zero && Float64.ltb denominator threshold
  then true
  else false.

End Threshold.

(** ** overhead.go *)

Definition accumulateGaps (pr : PipelineRun) (oc : Client)
    : float64 * list GapEntry * bool :=
  if skipPipelineRun pr then (Float64.of_int 0, [], false)
  else
    let '(sortedTaskRunsByCreateTimes, reverseOrderSortedTaskRunsByCompletionTimes, abort) :=
      sortTaskRunsForGapCalculations pr oc in
    if abort then (Float64.of_int 0, [], false)
    else
      let gapEntries :=
        calculateGaps pr sortedTaskRunsByCreateTimes
          reverseOrderSortedTaskRunsByCompletionTimes in
      let gapTotal :=
        List.fold_left (fun gapTotal gapEntry => Float64.add gapTotal (gap gapEntry))
          gapEntries (Float64.of_int 0) in
      (gapTotal, gapEntries, negb abort).

(** A nil pointer dereference ends a call with a panic instead of a result. *)
Inductive Outcome (A : Type) :=
  | Returned (a : A)
  | Panicked.
Arguments Returned {A} a.
Arguments Panicked {A}.

(** [reconcile.Result]. *)
Record Result := {
  Requeue : bool;
}.

(** One [Observe] on a histogram of the [OverheadCollector]. *)
Inductive Histogram :=
  | execution
  | scheduling.

Record Observation := {
  obs_metric : Histogram;
  obs_namespace : string;
  obs_status : string;
  obs_value : float64;
}.

(** What a reconciliation did: the values it observed, the patches it sent,
    and how it ended. *)
Record Reconciled := {
  observed : list Observation;
  patched : list (PipelineRun * PipelineRun);
  outcome : Outcome (Result * option error);
}.

Section Reconcile.

Variable Getenv : string -> string.
Variable ParseFloat : string -> option float64.

Definition ReconcileOverhead (oc : Client) (request_Namespace request_Name : string)
    : Reconciled :=
  match GetPipelineRun oc request_Namespace request_Name with
  | inl err =>
      if negb (IsNotFound err)
      then {| observed := []; patched := [];
              outcome := Returned ({| Requeue := false |}, Some err) |}
      else {| observed := []; patched := [];
              outcome := Returned ({| Requeue := false |}, None) |}
  | inr pr =>
      let succeedCondition := GetCondition ConditionSucceeded (pr_Conditions pr) in
      if match succeedCondition with
         | Some _ => negb (IsUnknown succeedCondition)
         | None => false
         end
      then
        let '(gapTotal, gapEntries, foundGaps) := accumulateGaps pr oc in
        if foundGaps then
          let status := if IsFalse succeedCondition then FAILED else SUCCEEDED in
          match pr_CompletionTime pr, pr_StartTime pr with
          | Some completionTime, Some startTime =>
              let totalDuration :=
                Float64.of_int (Milliseconds (Sub completionTime startTime)) in
              let obsExecution :=
                if negb (filter Getenv ParseFloat gapTotal totalDuration) then
                  [ {| obs_metric := execution; obs_namespace := pr_Namespace pr;
                       obs_status := status;
                       obs_value := Float64.div gapTotal totalDuration |} ]
                else [] in
              let scheduleDuration :=
                calculateScheduledDuration (pr_CreationTimestamp pr) startTime in
              let obsScheduling :=
                if negb (filter Getenv ParseFloat scheduleDuration totalDuration) then
                  [ {| obs_metric := scheduling; obs_namespace := pr_Namespace pr;
                       obs_status := status;
                       obs_value := Float64.div scheduleDuration totalDuration |} ]
                else [] in
              {| observed := (obsExecution ++ obsScheduling)%list; patched := [];
                 outcome := Returned ({| Requeue := false |}, None) |}
          | _, _ => {| observed := []; patched := []; outcome := Panicked |}
          end
        else {| observed := []; patched := [];
                outcome := Returned ({| Requeue := false |}, None) |}
      else
        if negb (isPipelineRunGoing pr)
        then {| observed := []; patched := [];
                outcome := Returned ({| Requeue := true |}, None) |}
        else
          let '(_, patches, err) := tagPipelineRunsWithTaskRunsGettingThrottled pr oc in
          {| observed := []; patched := patches;
             outcome := Returned ({| Requeue := false |}, err) |}
  end.

End Reconcile.

(** ** pipelinerun_create_to_start_time.go *)

Definition calculateScheduledDurationPipelineRun (pipelineRun : PipelineRun)
    : Outcome float64 :=
  match pr_StartTime pipelineRun with
  | None => Panicked
  | Some startTime =>
      Returned
        (Float64.div
           (calculateScheduledDuration (pr_CreationTimestamp pipelineRun) startTime)
           (Float64.of_int 1000))
  end.

(** ** The deadlock tracker of common.go *)

(** The [PollCollector] interface, with the two methods the tracker calls. *)
Class PollCollector (C : Type) := {
  IncCollector : string -> C -> C;
  ZeroCollector : string -> C -> C;
}.

(** A gauge per namespace. *)
Abbreviation Gauges := (gmap string Z).

(** Modelled from the spec: the implementation of [PollCollector] is not
    under src/; the sink is "one gauge-shaped sink (stuck-object count) keyed
    by namespace", which [IncCollector] increments by one and
    [ZeroCollector] sets to zero. *)
#[export] Instance GaugeCollector : PollCollector Gauges := {|
  IncCollector ns g := <[ns := default 0 (g !! ns) + 1]> g;
  ZeroCollector ns g := <[ns := 0]> g;
|}.

Module Deadlock.
Section Tracker.

Context {C : Type} `{PollCollector C}.

(** [innerReset] is called by [buildLastScanCopy] and defined elsewhere. *)
Variable innerReset : C -> list string -> C.

(** Go ranges over a map in an unspecified order; [map_to_list], [map_fold]
    and [set_fold] fix one, and nothing stated below depends on which. *)
Definition buildLastScanCopy (collector : C) (m : gmap string (gset string))
    : C * gmap string (gset string) :=
  let keys := (map_to_list m).*1 in
  let collector := innerReset collector keys in
  let cacheCopy :=
    map_fold
      (fun ns trMap (cacheCopy : gmap string (gset string)) =>
         let newPrMap :=
           set_fold (fun tr (newPrMap : gset string) => {[tr]} ∪ newPrMap) ∅ trMap in
         <[ns := newPrMap]> cacheCopy)
      ∅ m in
  (collector, cacheCopy).

Definition zeroOutPriorHitNamespacesThatAreNowEmpty (collector : C)
    (lastScan currentScan : gmap string (gset string)) : C :=
  map_fold
    (fun ns _ collector =>
       match currentScan !! ns with
       | Some _ => collector
       | None => ZeroCollector ns collector
       end)
    collector lastScan.

Record DeadlockTracker := {
  collector : C;
  deadlocked : unit -> bool;
  filter : gset string;
  flaggedNamespaces : gset string;
  lastScan : gmap string (gset string);
  currentScan : gmap string (gset string);
}.

Definition PerformDeadlockDetection (d : DeadlockTracker) (name ns : string)
    : DeadlockTracker :=
  if bool_decide (ns ∈ filter d) then d
  else
    let objMap := default ∅ (currentScan d !! ns) in
    let currentScan1 := <[ns := objMap]> (currentScan d) in
    let cacheCopyObjMap := default ∅ (lastScan d !! ns) in
    let objHitLastTime := bool_decide (name ∈ cacheCopyObjMap) in
    let '(currentScan2, collector2, flagged2) :=
      if deadlocked d tt then
        let currentScan2 := <[ns := {[name]} ∪ objMap]> currentScan1 in
        if objHitLastTime
        then (currentScan2, IncCollector ns (collector d),
              {[ns]} ∪ flaggedNamespaces d)
        else (currentScan2, collector d, flaggedNamespaces d)
      else (currentScan1, collector d, flaggedNamespaces d) in
    let collector3 :=
      if bool_decide (ns ∈ flagged2) then collector2
      else ZeroCollector ns collector2 in
    {| collector := collector3;
       deadlocked := deadlocked d;
       filter := filter d;
       flaggedNamespaces := flagged2;
       lastScan := lastScan d;
       currentScan := currentScan2 |}.

(** Modelled from the spec: the polling loop that ends a cycle is not under
    src/.  "End of cycle: previous-scan set <- deep copy of current-scan
    set; namespaces with no entries in the new current scan are dropped
    from tracking and their flagged/gauge state is cleared".  The copy is
    taken with [buildLastScanCopy], the gauges are cleared with
    [zeroOutPriorHitNamespacesThatAreNowEmpty] against the previous scan
    that the copy then replaces. *)
Definition endOfCycle (d : DeadlockTracker) : DeadlockTracker :=
  let '(collector1, cacheCopy) := buildLastScanCopy (collector d) (currentScan d) in
  let collector2 :=
    zeroOutPriorHitNamespacesThatAreNowEmpty collector1 (lastScan d) (currentScan d) in
  {| collector := collector2;
     deadlocked := deadlocked d;
     filter := filter d;
     flaggedNamespaces := flaggedNamespaces d ∩ dom (currentScan d);
     lastScan := cacheCopy;
     currentScan := currentScan d |}.

End Tracker.
End Deadlock.

(** ** Sample objects

    A run created at second 1000 with task runs [a] (created at 1000, never
    completed), [b] (created at 1010, completed at 1015) and [c] (created at
    1025, never completed), and the clients that serve them. *)

Module Sample.

Definition succeeded (st reason : string) : Condition :=
  {| Type_ := ConditionSucceeded; Status := st; Reason := reason; Message := "" |}.

Definition taskRun (name task : string) (created : Z) (done : option Z)
    (cond : Condition) : TaskRun :=
  {| tr_Name := name;
     tr_Namespace := "ns";
     tr_Labels := Some {[ TaskLabelKey := task ]};
     tr_CreationTimestamp := created * Second;
     tr_StartTime := None;
     tr_CompletionTime := (fun t => t * Second) <$> done;
     tr_Conditions := [cond] |}.

Definition run (st : string) (labels : Labels) (started : option Z)
    (kids : list string) : PipelineRun :=
  {| pr_Name := "run";
     pr_GenerateName := "";
     pr_Namespace := "ns";
     pr_Labels := labels;
     pr_CreationTimestamp := 1000 * Second;
     pr_PipelineRef := Some {| ref_Name := "pipe"; ref_Params := [] |};
     pr_ChildReferences :=
       (fun k => {| Kind := "TaskRun"; child_Name := k |}) <$> kids;
     pr_StartTime := (fun t => t * Second) <$> started;
     pr_CompletionTime := Some (1360 * Second);
     pr_Conditions := [succeeded st ""] |}.

Definition a : TaskRun := taskRun "a" "task-a" 1000 None (succeeded "True" "").
Definition b : TaskRun := taskRun "b" "task-b" 1010 (Some 1015) (succeeded "True" "").
Definition c : TaskRun := taskRun "c" "task-c" 1025 None (succeeded "Unknown" "").
(** [a'] completes at 1020, after [b] was created. *)
Definition a' : TaskRun := taskRun "a" "task-a" 1000 (Some 1020) (succeeded "True" "").
(** [q] waits for quota. *)
Definition q : TaskRun :=
  taskRun "q" "task-q" 1030 None (succeeded "Unknown" ReasonExceededResourceQuota).

Definition notFound : error :=
  {| err_Reason := StatusReasonNotFound; err_Message := "not found" |}.
Definition timeout : error :=
  {| err_Reason := StatusReasonTimeout; err_Message := "timeout" |}.

(** A client holding the task runs [trs] and the run [pr]; a lookup of the
    task run named [broken] times out, any other missing name is not found. *)
Definition client (trs : list TaskRun) (pr : PipelineRun) (broken : string) : Client :=
  {| GetTaskRun _ name :=
       if String.eqb name broken then inl timeout
       else match List.find (fun t => String.eqb (tr_Name t) name) trs with
            | Some t => inr t
            | None => inl notFound
            end;
     GetPipelineRun _ name :=
       if String.eqb name (pr_Name pr) then inr pr else inl notFound;
     Patch _ _ := None |}.

Definition noenv : string -> string := fun _ => "".
Definition noparse : string -> option float64 := fun _ => None.

End Sample.

(** ** Vocabulary of the statements *)

(** The run is done: its succeed condition exists and is not unknown. *)
Definition runDone (pr : PipelineRun) (c : Condition) : Prop :=
  GetCondition ConditionSucceeded (pr_Conditions pr) = Some c ∧
  Status c ≠ ConditionUnknown.

Definition statusOf (c : Condition) : string :=
  if String.eqb (Status c) ConditionFalse then FAILED else SUCCEEDED.

(** [tr] was created while the first task run had not completed yet. *)
Definition parallelWith (firstKid tr : TaskRun) : Prop :=
  ∃ t, tr_CompletionTime firstKid = Some t ∧ tr_CreationTimestamp tr < t.



Definition hasCompletionTime (tr : TaskRun) : bool :=
  match tr_CompletionTime tr with
  | Some _ => true
  | None => false
  end.

(** The gap entry of [tr] measured from the creation of the run. *)
Definition entryFromRun (pr : PipelineRun) (c : Condition) (tr : TaskRun) : GapEntry :=
  {| status := statusOf c;
     pipeline := pipelineRunPipelineRef pr;
     completed := pipelineRunPipelineRef pr;
     upcoming := taskRef (tr_Labels tr);
     gap := Float64.of_int
              (Milliseconds (Sub (tr_CreationTimestamp tr) (pr_CreationTimestamp pr))) |}.


Module SampleRuns.


(** [a'] is still running when [b] is created. *)
Definition prAB : PipelineRun := Sample.run "False" None (Some 1005) ["a"; "b"].
Definition ocAB : Client := Sample.client [Sample.a'; Sample.b] prAB "".


(** A single task run. *)
Definition prB : PipelineRun := Sample.run "False" None (Some 1005) ["b"].
Definition ocB : Client := Sample.client [Sample.b] prB "".

End SampleRuns.

(** The scan of [isPipelineRunThrottled] moves past [kidRef]: it is no task
    run, or it is not found, or it is found and not throttled. *)
Definition passedOver (oc : Client) (ns : string) (kidRef : ChildStatusReference) : Prop :=
  isTaskRunKind kidRef = false ∨
  (∃ err, GetTaskRun oc ns (child_Name kidRef) = inl err ∧ IsNotFound err = true) ∨
  (∃ kid, GetTaskRun oc ns (child_Name kidRef) = inr kid ∧ isTaskRunThrottled kid = false).

Definition patchesOf (r : PipelineRun * list (PipelineRun * PipelineRun) * option error)
    : list (PipelineRun * PipelineRun) := r.1.2.

Definition runAfter (r : PipelineRun * list (PipelineRun * PipelineRun) * option error)
    : PipelineRun := r.1.1.

Module SampleThrottle.

(** A running run whose task run [q] waits for quota, first without and
    then with the throttle label; the reference [gone] is to a task run that
    no longer exists. *)
Definition prQ : PipelineRun := Sample.run "Unknown" None (Some 1005) ["gone"; "q"; "b"].
Definition prQlabelled : PipelineRun :=
  Sample.run "Unknown" (Some {[ THROTTLED_LABEL := "q" ]}) (Some 1005) ["gone"; "q"; "b"].
Definition ocQ : Client := Sample.client [Sample.q; Sample.b] prQ "".

(** The lookup of [b] times out before [q] is reached. *)
Definition prBQ : PipelineRun := Sample.run "Unknown" None (Some 1005) ["gone"; "b"; "q"].
Definition ocBQ : Client := Sample.client [Sample.q; Sample.b] prBQ "b".

(** A done run one of whose task runs cannot be fetched for a while. *)
Definition prDone : PipelineRun := Sample.run "True" None (Some 1005) ["a"; "b"].
Definition ocTimeout : Client := Sample.client [Sample.a; Sample.b] prDone "b".

(** A done run that never got a start time. *)
Definition prUnstarted : PipelineRun := Sample.run "True" None None ["b"].
Definition ocUnstarted : Client := Sample.client [Sample.b] prUnstarted "".

End SampleThrottle.

Module SampleTracker.

(** An [innerReset] that zeroes the gauge of every key it is given. *)
Definition zeroEach (g : Gauges) (keys : list string) : Gauges :=
  List.fold_right ZeroCollector g keys.

(** [run-1] of namespace [team] failed in the previous scan and fails again. *)
Definition stuck : Deadlock.DeadlockTracker (C := Gauges) :=
  {| Deadlock.collector := {[ "team" := 0 ]};
     Deadlock.deadlocked := λ _, true;
     Deadlock.filter := {[ "kube-system" ]};
     Deadlock.flaggedNamespaces := ∅;
     Deadlock.lastScan := {[ "team" := {[ "run-1" ]} ]};
     Deadlock.currentScan := ∅ |}.

(** Namespace [team] was flagged in the previous scan and no object of it
    was polled in the current one, which only saw namespace [other]. *)
Definition vanished : Deadlock.DeadlockTracker (C := Gauges) :=
  {| Deadlock.collector := {[ "team" := 1; "other" := 0 ]};
     Deadlock.deadlocked := λ _, false;
     Deadlock.filter := {[ "kube-system" ]};
     Deadlock.flaggedNamespaces := {[ "team" ]};
     Deadlock.lastScan := {[ "team" := {[ "run-1" ]} ]};
     Deadlock.currentScan := {[ "other" := ∅ ]} |}.

End SampleTracker.

(** ** The rest of package [collector] *)

(** *** Settings read from the environment (common.go) *)

Module GoStrconv.

(** [strconv.ParseBool], with [None] for a returned error. *)
Definition ParseBool (str : string) : option bool :=
  if List.existsb (String.eqb str) ["1"; "t"; "T"; "true"; "TRUE"; "True"]
  then Some true
  else if List.existsb (String.eqb str) ["0"; "f"; "F"; "false"; "FALSE"; "False"]
  then Some false
  else None.

End GoStrconv.

(** [strings.Split(s, sep)] for a separator [sep] of one byte: the pieces of
    [s] between the separators, [s] itself when it holds none. *)
Fixpoint Split (sep : Ascii.ascii) (s : string) : list string :=
  match s with
  | EmptyString => [EmptyString]
  | String a s' =>
      if Ascii.eqb a sep then EmptyString :: Split sep s'
      else match Split sep s' with
           | piece :: pieces => String a piece :: pieces
           | [] => [String a EmptyString]
           end
  end.

Definition comma : Ascii.ascii := Ascii.ascii_of_nat 44.

Definition PodCreateFilterEnvName : string := "POD_CREATE_METRIC_NAMESPACE_FILTER".
Definition PipelineRunKickoffFilterEnvName : string :=
  "PIPELINERUN_KICKOFF_METRIC_NAMESPACE_FILTER".

Section Environment.

Variable Getenv : string -> string.

Definition optionalMetricEnabled (envVarName : string) : bool :=
  let env := Getenv envVarName in
  let enabled := nonempty env in
  if enabled then
    match GoStrconv.ParseBool env with
    | Some false => false
    | _ => true
    end
  else false.

Definition podCreateNameSpaceFilter : gset string :=
  let env := Getenv PodCreateFilterEnvName in
  let namespaces := Split comma env in
  List.fold_left (fun namespaceFilter ns => {[ns]} ∪ namespaceFilter) namespaces ∅.

Definition pipelineRunKickoffNameSpaceFilter : gset string :=
  let env := Getenv PipelineRunKickoffFilterEnvName in
  let namespaces := Split comma env in
  List.fold_left (fun namespaceFilter ns => {[ns]} ∪ namespaceFilter) namespaces ∅.

End Environment.

(** *** pipelinerun_pipeline_resolution_wait.go: [pipelineRef] *)

Definition PipelineLabelKey : string := "tekton.dev/pipeline".
Definition PipelineRunLabelKey : string := "tekton.dev/pipelineRun".

Definition pipelineRef (labels : Labels) : string :=
  let p := label_get labels PipelineLabelKey in
  let pr := label_get labels PipelineRunLabelKey in
  if nonempty p then p
  else if nonempty pr then pr
  else "".

(** *** The event filters *)

(** [IsDone] of a run: its succeed condition is not unknown, a missing
    condition counting as unknown. *)
Definition IsDone (conds : list Condition) : bool :=
  negb (IsUnknown (GetCondition ConditionSucceeded conds)).

(** What an update event carries: [client.Object]s, of which the filters
    only take pipeline runs, or task runs, after a type assertion. *)
Inductive Object :=
  | ObjPipelineRun (pr : PipelineRun)
  | ObjTaskRun (tr : TaskRun)
  | ObjOther.

(** [overheadGapEventFilter.Update] (overhead.go). *)
Definition overheadGapEventFilter_Update (client : Client) (ObjectOld ObjectNew : Object)
    : bool :=
  match ObjectOld, ObjectNew with
  | ObjPipelineRun oldPR, ObjPipelineRun newPR =>
      match label_lookup (pr_Labels newPR) THROTTLED_LABEL with
      | Some _ => false
      | None =>
          if negb (IsDone (pr_Conditions oldPR)) && IsDone (pr_Conditions newPR) then true
          else if IsDone (pr_Conditions oldPR) && IsDone (pr_Conditions newPR) then false
          else
            let '(newThrottled, _, _) := isPipelineRunThrottled newPR client in
            if newThrottled then true
            else if negb (isPipelineRunGoing newPR) then true
            else false
      end
  | _, _ => false
  end.

(** One [metric.With(labels).Observe(value)]. *)
Record Sampled := {
  sampled_labels : gmap string string;
  sampled_value : float64;
}.

(** [bumpPipelineRunScheduledDuration]: the sample it observes. *)
Definition bumpPipelineRunScheduledDuration (scheduleDuration : float64)
    (pr : PipelineRun) : Sampled :=
  let succeededCondition := GetCondition ConditionSucceeded (pr_Conditions pr) in
  let status := if IsFalse succeededCondition then FAILED else SUCCEEDED in
  {| sampled_labels := {[ NS_LABEL := pr_Namespace pr; STATUS_LABEL := status ]};
     sampled_value := scheduleDuration |}.

(** [startTimeEventFilter.Update]: what it returns and what it observed. *)
Definition startTimeEventFilter_Update (ObjectOld ObjectNew : Object)
    : Outcome (bool * list Sampled) :=
  match ObjectOld, ObjectNew with
  | ObjPipelineRun oldPR, ObjPipelineRun newPR =>
      if negb (IsDone (pr_Conditions oldPR)) && IsDone (pr_Conditions newPR) then
        match calculateScheduledDurationPipelineRun newPR with
        | Panicked => Panicked
        | Returned scheduleDuration =>
            Returned (false, [bumpPipelineRunScheduledDuration scheduleDuration newPR])
        end
      else Returned (false, [])
  | _, _ => Returned (false, [])
  end.

(** The reference resolution filters read the transition time of the
    succeed condition, which [Condition] leaves out: a condition with its
    [LastTransitionTime], and the fields of a pipeline run or task run that
    these filters read, [wr_Ref] telling whether [Spec.PipelineRef] or
    [Spec.TaskRef] is set. *)
Record TimedCondition := {
  tc_Condition : Condition;
  LastTransitionTime : Time;
}.

Record WaitingRun := {
  wr_Namespace : string;
  wr_Name : string;
  wr_Ref : bool;
  wr_Conditions : list TimedCondition;
}.

Definition GetTimedCondition (t : string) (conds : list TimedCondition)
    : option TimedCondition :=
  List.find (fun c => String.eqb (Type_ (tc_Condition c)) t) conds.

Definition wr_IsDone (r : WaitingRun) : bool :=
  negb (IsUnknown
          (option_map tc_Condition
             (GetTimedCondition ConditionSucceeded (wr_Conditions r)))).

Definition ReasonResolvingPipelineRef : string := "ResolvingPipelineRef".
Definition TaskRunReasonResolvingTaskRef : string := "ResolvingTaskRef".

Definition waitSample (r : WaitingRun) (v : float64) : Sampled :=
  {| sampled_labels := {[ NS_LABEL := wr_Namespace r ]}; sampled_value := v |}.

(** [pipelineRefWaitTimeFilter.Update]; [None] is an object that is no
    pipeline run. *)
Definition pipelineRefWaitTimeFilter_Update (ObjectOld ObjectNew : option WaitingRun)
    : bool * list Sampled :=
  match ObjectOld, ObjectNew with
  | Some oldPR, Some newPR =>
      match GetTimedCondition ConditionSucceeded (wr_Conditions newPR) with
      | None => (false, [])
      | Some newSucceedCondition =>
          let observed1 :=
            if negb (wr_IsDone oldPR) && wr_IsDone newPR then
              if negb (wr_Ref newPR) then [waitSample newPR (Float64.of_int 0)] else []
            else [] in
          if wr_IsDone newPR then (false, observed1)
          else
            match GetTimedCondition ConditionSucceeded (wr_Conditions oldPR) with
            | None => (false, observed1)
            | Some oldSucceedCondtition =>
                let oldReason := Reason (tc_Condition oldSucceedCondtition) in
                let newReason := Reason (tc_Condition newSucceedCondition) in
                if String.eqb oldReason ReasonResolvingPipelineRef &&
                   negb (String.eqb newReason ReasonResolvingPipelineRef)
                then
                  let originalTime := LastTransitionTime oldSucceedCondtition in
                  (false,
                   (observed1 ++
                    [waitSample newPR
                       (Float64.of_int
                          (Milliseconds
                             (Sub (LastTransitionTime newSucceedCondition)
                                originalTime)))])%list)
                else (false, observed1)
            end
      end
  | _, _ => (false, [])
  end.

(** [taskRefWaitTimeFilter.Update]; [None] is an object that is no task run. *)
Definition taskRefWaitTimeFilter_Update (ObjectOld ObjectNew : option WaitingRun)
    : bool * list Sampled :=
  match ObjectOld, ObjectNew with
  | Some oldTR, Some newTR =>
      match GetTimedCondition ConditionSucceeded (wr_Conditions newTR) with
      | None => (false, [])
      | Some newSucceedCondition =>
          if negb (wr_IsDone oldTR) && wr_IsDone newTR then
            if negb (wr_Ref newTR) then (false, [waitSample newTR (Float64.of_int 0)])
            else (false, [])
          else if wr_IsDone newTR then (false, [])
          else
            match GetTimedCondition ConditionSucceeded (wr_Conditions oldTR) with
            | None => (false, [])
            | Some oldSucceedCondtition =>
                let oldReason := Reason (tc_Condition oldSucceedCondtition) in
                let newReason := Reason (tc_Condition newSucceedCondition) in
                if String.eqb oldReason TaskRunReasonResolvingTaskRef &&
                   negb (String.eqb newReason TaskRunReasonResolvingTaskRef)
                then
                  let originalTime := LastTransitionTime oldSucceedCondtition in
                  (false,
                   [waitSample newTR
                      (Float64.of_int
                         (Milliseconds
                            (Sub (LastTransitionTime newSucceedCondition)
                               originalTime)))])
                else (false, [])
            end
      end
  | _, _ => (false, [])
  end.

(** [taskRefWaitTimeFilter.getKey]: [types.NamespacedName.String]. *)
Definition getKey (tr : TaskRun) : string :=
  (tr_Namespace tr ++ "/" ++ tr_Name tr)%string.

(** *** Vocabulary of the further statements *)

(** The task runs that [sortTaskRunsForGapCalculations] collects, in the
    order of the child references. *)
Definition fetchedTaskRuns (oc : Client) (ns : string)
    (refs : list ChildStatusReference) : list TaskRun :=
  omap (fun kidRef =>
          if isTaskRunKind kidRef then
            match GetTaskRun oc ns (child_Name kidRef) with
            | inr kid => Some kid
            | inl _ => None
            end
          else None) refs.

(** The reference is to a task run whose [Get] fails. *)
Definition fetchFails (oc : Client) (ns : string) (kidRef : ChildStatusReference) : Prop :=
  isTaskRunKind kidRef = true ∧
  ∃ err, GetTaskRun oc ns (child_Name kidRef) = inl err.

Definition set_pr_Name (n : string) (pr : PipelineRun) : PipelineRun := {|
  pr_Name := n;
  pr_GenerateName := pr_GenerateName pr;
  pr_Namespace := pr_Namespace pr;
  pr_Labels := pr_Labels pr;
  pr_CreationTimestamp := pr_CreationTimestamp pr;
  pr_PipelineRef := pr_PipelineRef pr;
  pr_ChildReferences := pr_ChildReferences pr;
  pr_StartTime := pr_StartTime pr;
  pr_CompletionTime := pr_CompletionTime pr;
  pr_Conditions := pr_Conditions pr;
|}.

(** What a reference resolution filter observes, [resolving] being the
    reason of a condition that waits for the reference. *)
Definition waitObserved (resolving : string) (ObjectOld ObjectNew : option WaitingRun)
    : list Sampled :=
  match ObjectOld, ObjectNew with
  | Some old, Some new =>
      match GetTimedCondition ConditionSucceeded (wr_Conditions new) with
      | None => []
      | Some newCondition =>
          if wr_IsDone new then
            if negb (wr_IsDone old) && negb (wr_Ref new)
            then [waitSample new (Float64.of_int 0)]
            else []
          else
            match GetTimedCondition ConditionSucceeded (wr_Conditions old) with
            | None => []
            | Some oldCondition =>
                if String.eqb (Reason (tc_Condition oldCondition)) resolving &&
                   negb (String.eqb (Reason (tc_Condition newCondition)) resolving)
                then [waitSample new
                        (Float64.of_int
                           (Milliseconds
                              (Sub (LastTransitionTime newCondition)
                                 (LastTransitionTime oldCondition))))]
                else []
            end
      end
  | _, _ => []
  end.

(** The update turns a pipeline run that is not done into one that is. *)
Definition becomesDone (ObjectOld ObjectNew : Object) (newPR : PipelineRun) : Prop :=
  ∃ oldPR,
    ObjectOld = ObjPipelineRun oldPR ∧ ObjectNew = ObjPipelineRun newPR ∧
    IsDone (pr_Conditions oldPR) = false ∧ IsDone (pr_Conditions newPR) = true.

(** The byte [c] occurs in [s]. *)
Fixpoint occurs (c : Ascii.ascii) (s : string) : bool :=
  match s with
  | EmptyString => false
  | String a s' => Ascii.eqb a c || occurs c s'
  end.

(** The label keys [taskRef] reads, in its order of preference, and those
    of [pipelineRef]. *)
Definition taskRefKeys : list string :=
  [TaskLabelKey; PipelineTaskLabelKey; ClusterTaskLabelKey; TaskRunLabelKey].
Definition pipelineRefKeys : list string := [PipelineLabelKey; PipelineRunLabelKey].

(** The first non-empty value that [labels] holds under [keys]. *)
Fixpoint firstLabel (labels : Labels) (keys : list string) : string :=
  match keys with
  | [] => ""
  | k :: keys' =>
      if nonempty (label_get labels k) then label_get labels k
      else firstLabel labels keys'
  end.

Module SampleEnv.

(** An environment that sets the pod creation filter to two namespaces and
    switches a metric off. *)
Definition env (name : string) : string :=
  if String.eqb name PodCreateFilterEnvName then "tekton-ci,default"
  else if String.eqb name PipelineRunKickoffFilterEnvName then "build"
  else if String.eqb name "ENABLE_GAP_METRIC" then "False"
  else "".

End SampleEnv.

(** A pass over objects of one namespace: for each object, given by its
    name and by what the detector answers for it, the caller sets
    [deadlocked] and polls. *)
Definition setDeadlocked {C : Type} (stuck : bool) (d : Deadlock.DeadlockTracker (C := C))
    : Deadlock.DeadlockTracker (C := C) :=
  {| Deadlock.collector := Deadlock.collector d;
     Deadlock.deadlocked := λ _, stuck;
     Deadlock.filter := Deadlock.filter d;
     Deadlock.flaggedNamespaces := Deadlock.flaggedNamespaces d;
     Deadlock.lastScan := Deadlock.lastScan d;
     Deadlock.currentScan := Deadlock.currentScan d |}.

Definition pollAll {C : Type} `{PollCollector C} (d : Deadlock.DeadlockTracker (C := C))
    (ns : string) (objs : list (string * bool)) : Deadlock.DeadlockTracker (C := C) :=
  List.fold_left
    (λ d obj, Deadlock.PerformDeadlockDetection (setDeadlocked (snd obj) d) (fst obj) ns)
    objs d.

(** The object fails and was in the previous scan of its namespace. *)
Definition stuckAgain (lastScan : gmap string (gset string)) (ns : string)
    (obj : string * bool) : bool :=
  snd obj && bool_decide (fst obj ∈ default ∅ (lastScan !! ns)).

Definition slash : Ascii.ascii := Ascii.ascii_of_nat 47.

Module SampleKeys.

Definition tr1 : TaskRun := Sample.taskRun "build" "task" 1000 None (Sample.succeeded "True" "").

End SampleKeys.

Module SampleMore.

(** [b2] is created and completes at the same instants as [b]. *)
Definition b2 : TaskRun :=
  Sample.taskRun "b2" "task-b2" 1010 (Some 1015) (Sample.succeeded "True" "").
Definition prTie : PipelineRun := Sample.run "True" None (Some 1005) ["b2"; "b"; "a"].
Definition ocTie : Client := Sample.client [Sample.a; Sample.b; b2] prTie "".

(** A done run that carries the throttle label and has no start time. *)
Definition prLabelled : PipelineRun :=
  Sample.run "True" (Some {[ THROTTLED_LABEL := "q" ]}) None ["b"].
Definition ocLabelled : Client := Sample.client [Sample.b] prLabelled "".

(** A done run whose only child is a custom run. *)
Definition prCustom : PipelineRun :=
  {| pr_Name := "run";
     pr_GenerateName := "";
     pr_Namespace := "ns";
     pr_Labels := None;
     pr_CreationTimestamp := 1000 * Second;
     pr_PipelineRef := Some {| ref_Name := "pipe"; ref_Params := [] |};
     pr_ChildReferences := [ {| Kind := "CustomRun"; child_Name := "approval" |} ];
     pr_StartTime := Some (1005 * Second);
     pr_CompletionTime := Some (1360 * Second);
     pr_Conditions := [Sample.succeeded "True" ""] |}.
Definition ocCustom : Client := Sample.client [] prCustom "".

(** The objects of namespace [team] met by one pass. *)
Definition pass : list (string * bool) :=
  [("run-1", true); ("run-2", true); ("run-3", false)].

End SampleMore.

(** * Properties *)

(** ** Time arithmetic *)

(** Within the range of [Duration], [Sub] is the difference of the instants. *)
Lemma Sub_exact (t u : Time) :
  minDuration ≤ t - u ≤ maxDuration → Sub t u = t - u.
Proof.
  intros [Hlo Hhi]. unfold Sub.
  destruct (Z.ltb_spec (t - u) minDuration); [lia|].
  destruct (Z.ltb_spec maxDuration (t - u)); [lia|done].
Qed.

(** A whole number of milliseconds is read back without truncation. *)
Lemma Milliseconds_exact (ms : Z) : Milliseconds (ms * Millisecond) = ms.
Proof. unfold Milliseconds, Millisecond. by rewrite Z.quot_mul. Qed.

Lemma Milliseconds_of_Sub (t ms : Z) :
  minDuration ≤ ms * Millisecond ≤ maxDuration →
  Milliseconds (Sub (t + ms * Millisecond) t) = ms.
Proof.
  intros Hr.
  assert (t + ms * Millisecond - t = ms * Millisecond) as Hd by lia.
  rewrite Sub_exact by (by rewrite Hd).
  rewrite Hd. apply Milliseconds_exact.
Qed.

(** ** Stable sorting *)

Section SliceStableFacts.

Context {A : Type} (less : A -> A -> bool).

Lemma insert_stable_perm (x : A) (l : list A) :
  insert_stable less x l ≡ₚ x :: l.
Proof.
  induction l as [|y l IH]; simpl; [done|].
  destruct (less y x); [|done].
  rewrite IH. apply Permutation_swap.
Qed.

Lemma SliceStable_perm (l : list A) : SliceStable less l ≡ₚ l.
Proof.
  induction l as [|x l IH]; simpl; [done|].
  rewrite insert_stable_perm. by rewrite IH.
Qed.


Variable key : A -> Z.
Hypothesis less_key : ∀ a b, less a b = (key a <? key b).

Lemma insert_stable_sorted (x : A) (l : list A) :
  StronglySorted (λ a b, key a ≤ key b) l →
  StronglySorted (λ a b, key a ≤ key b) (insert_stable less x l).
Proof.
  induction l as [|y l IH]; simpl; intros Hs.
  - repeat constructor.
  - apply StronglySorted_inv in Hs as [Hs Hy].
    rewrite less_key. destruct (Z.ltb_spec (key y) (key x)) as [Hlt|Hge].
    + constructor; [by apply IH|].
      rewrite insert_stable_perm. constructor; [lia|done].
    + constructor; [by constructor|].
      constructor; [done|].
      eapply Forall_impl; [exact Hy|]. simpl. intros z Hz. lia.
Qed.

Lemma SliceStable_sorted (l : list A) :
  StronglySorted (λ a b, key a ≤ key b) (SliceStable less l).
Proof.
  induction l as [|x l IH]; simpl; [constructor|].
  by apply insert_stable_sorted.
Qed.

End SliceStableFacts.

(** ** Gap reconstruction *)

Lemma runDone_not_unknown (pr : PipelineRun) (c : Condition) :
  runDone pr c → IsUnknown (Some c) = false.
Proof. intros [_ Hc]. simpl. by apply String.eqb_neq. Qed.

Lemma statusOf_IsFalse (c : Condition) :
  (if IsFalse (Some c) then FAILED else SUCCEEDED) = statusOf c.
Proof. reflexivity. Qed.

Lemma calculateGaps_loop_done (pr : PipelineRun) (c : Condition) (prRef : string)
    (firstKid : TaskRun) (rev : list TaskRun) (l : list TaskRun) :
  runDone pr c →
  ∀ (index : nat) (acc : list GapEntry),
    calculateGaps_loop pr prRef firstKid rev index l acc =
    (acc ++ imap (λ j, gapEntryFor pr prRef (Some c) firstKid rev (index + j)) l)%list.
Proof.
  intros Hdone. pose proof (runDone_not_unknown _ _ Hdone) as Hu.
  destruct Hdone as [Hc _].
  induction l as [|tr l IH]; intros index acc; simpl.
  - by rewrite app_nil_r.
  - rewrite Hc, Hu, IH, <- app_assoc. simpl.
    rewrite Nat.add_0_r. do 2 f_equal.
    apply imap_ext. intros j x _. simpl. f_equal. lia.
Qed.

Lemma calculateGaps_lookup (pr : PipelineRun) (c : Condition)
    (sorted rev : list TaskRun) (firstKid : TaskRun) (i : nat) :
  runDone pr c →
  sorted !! 0%nat = Some firstKid →
  calculateGaps pr sorted rev !! i =
  gapEntryFor pr (pipelineRunPipelineRef pr) (Some c) firstKid rev i <$> sorted !! i.
Proof.
  intros Hdone Hfirst. unfold calculateGaps.
  destruct sorted as [|k sorted]; [done|]. simpl in Hfirst. injection Hfirst as ->.
  rewrite (calculateGaps_loop_done _ _ _ _ _ _ Hdone), app_nil_l.
  by rewrite list_lookup_imap.
Qed.

Lemma gapEntryFor_first (pr : PipelineRun) (c : Condition) (prRef : string)
    (firstKid tr : TaskRun) (rev : list TaskRun) :
  gapEntryFor pr prRef (Some c) firstKid rev 0 tr =
  {| status := statusOf c; pipeline := prRef; completed := prRef;
     upcoming := taskRef (tr_Labels tr);
     gap := gapSince tr (pr_CreationTimestamp pr) |}.
Proof. reflexivity. Qed.

Lemma gapEntryFor_parallel (pr : PipelineRun) (c : Condition) (prRef : string)
    (firstKid tr : TaskRun) (rev : list TaskRun) (i : nat) :
  parallelWith firstKid tr →
  gapEntryFor pr prRef (Some c) firstKid rev i tr =
  {| status := statusOf c; pipeline := prRef; completed := prRef;
     upcoming := taskRef (tr_Labels tr);
     gap := gapSince tr (pr_CreationTimestamp pr) |}.
Proof.
  intros (t & Ht & Hlt). unfold gapEntryFor. rewrite Ht.
  destruct (i =? 0)%nat; [done|].
  unfold After. by rewrite (proj2 (Z.ltb_lt _ _) Hlt).
Qed.



Section Descending.

Variable key : TaskRun -> Z.




End Descending.

Lemma StronglySorted_weaken {A : Type} (R R' : A → A → Prop) (l : list A) :
  (∀ a b, R a b → R' a b) → StronglySorted R l → StronglySorted R' l.
Proof.
  intros HR. induction 1 as [|a l Hs IH Ha]; constructor; [done|].
  eapply Forall_impl; [exact Ha|]. intros b. apply HR.
Qed.

(** What [sortTaskRunsForGapCalculations] returns when it does not abort. *)

Lemma fetchTaskRuns_completed (oc : Client) (ns : string)
    (refs : list ChildStatusReference) :
  ∀ (a b a' b' : list TaskRun),
    fetchTaskRuns oc ns refs a b = Some (a', b') →
    b = List.filter hasCompletionTime a →
    b' = List.filter hasCompletionTime a'.
Proof.
  induction refs as [|kidRef refs IH]; simpl; intros a b a' b' Hf Hb.
  - by injection Hf as <- <-.
  - destruct (negb (isTaskRunKind kidRef)); [by eapply IH|].
    destruct (GetTaskRun oc ns (child_Name kidRef)) as [?|kid]; [done|].
    eapply IH; [exact Hf|].
    rewrite List.filter_app. simpl. unfold hasCompletionTime at 2.
    destruct (tr_CompletionTime kid); subst b; [done|by rewrite app_nil_r].
Qed.

Lemma sortTaskRuns_result (pr : PipelineRun) (oc : Client) (sorted rev : list TaskRun) :
  sortTaskRunsForGapCalculations pr oc = (sorted, rev, false) →
  ∃ kids,
    fetchTaskRuns oc (pr_Namespace pr) (pr_ChildReferences pr) [] [] =
      Some (kids, List.filter hasCompletionTime kids) ∧
    sorted = SliceStable createdBefore kids ∧
    rev = SliceStable completedAfter (List.filter hasCompletionTime kids).
Proof.
  unfold sortTaskRunsForGapCalculations.
  destruct (fetchTaskRuns _ _ _ _ _) as [[kids comp]|] eqn:Hf; [|done].
  intros [= <- <-]. exists kids.
  by rewrite (fetchTaskRuns_completed _ _ _ _ _ _ _ Hf eq_refl).
Qed.

Lemma sortTaskRuns_earliest (pr : PipelineRun) (oc : Client)
    (sorted rev : list TaskRun) (firstKid x : TaskRun) :
  sortTaskRunsForGapCalculations pr oc = (sorted, rev, false) →
  sorted !! 0%nat = Some firstKid →
  x ∈ sorted →
  tr_CreationTimestamp firstKid ≤ tr_CreationTimestamp x.
Proof.
  intros (kids & _ & -> & _)%sortTaskRuns_result Hfirst Hx.
  pose proof (SliceStable_sorted createdBefore tr_CreationTimestamp
                (λ a b, eq_refl) kids) as Hs.
  destruct (SliceStable createdBefore kids) as [|k l]; [done|].
  injection Hfirst as ->.
  apply StronglySorted_inv in Hs as [_ Hk].
  apply elem_of_cons in Hx as [->|Hx]; [lia|].
  rewrite Forall_forall in Hk. by apply Hk.
Qed.

Lemma sortTaskRuns_descending (pr : PipelineRun) (oc : Client)
    (sorted rev : list TaskRun) :
  sortTaskRunsForGapCalculations pr oc = (sorted, rev, false) →
  StronglySorted
    (λ a b, deref (tr_CompletionTime b) ≤ deref (tr_CompletionTime a)) rev.
Proof.
  intros (kids & _ & _ & ->)%sortTaskRuns_result.
  pose proof (SliceStable_sorted completedAfter
                (λ tr, - deref (tr_CompletionTime tr))) as Hs.
  eapply StronglySorted_weaken; [|apply Hs].
  - simpl. intros a b. lia.
  - intros a b. unfold completedAfter, After.
    destruct (Z.ltb_spec (deref (tr_CompletionTime b)) (deref (tr_CompletionTime a)));
      symmetry; [apply Z.ltb_lt|apply Z.ltb_ge]; lia.
Qed.




(** C5.  When the first created task run completes strictly after another
    task run was created, that task run is parallel: its entry names the run
    as what completed before it and its gap is its creation time minus the
    creation time of the run.  The first task run of the creation order is
    the earliest created one. *)
Theorem C5_parallel_measured_from_run (pr : PipelineRun) (oc : Client) (c : Condition)
    (sorted rev : list TaskRun) (firstKid tr : TaskRun) (i : nat) :
  runDone pr c →
  sortTaskRunsForGapCalculations pr oc = (sorted, rev, false) →
  sorted !! 0%nat = Some firstKid →
  sorted !! i = Some tr →
  parallelWith firstKid tr →
  (∀ x, x ∈ sorted → tr_CreationTimestamp firstKid ≤ tr_CreationTimestamp x) ∧
  calculateGaps pr sorted rev !! i = Some (entryFromRun pr c tr).
Proof.
  intros Hdone Hsort Hfirst Htr Hpar. split.
  - intros x. by eapply sortTaskRuns_earliest.
  - rewrite (calculateGaps_lookup _ _ _ _ _ _ Hdone Hfirst), Htr. simpl.
    by rewrite gapEntryFor_parallel.
Qed.

(** C6.  A run whose only child reference is a task run that can be fetched
    yields exactly one gap entry; its gap is the creation time of the task
    run minus the creation time of the run, in milliseconds, whether the run
    succeeded or failed: only the status of the entry tells the two apart. *)
Theorem C6_single_step_gap (pr : PipelineRun) (oc : Client) (c : Condition)
    (kidRef : ChildStatusReference) (kid : TaskRun) :
  runDone pr c →
  pr_ChildReferences pr = [kidRef] →
  Kind kidRef = "TaskRun" →
  GetTaskRun oc (pr_Namespace pr) (child_Name kidRef) = inr kid →
  ∃ rev,
    sortTaskRunsForGapCalculations pr oc = ([kid], rev, false) ∧
    calculateGaps pr [kid] rev = [entryFromRun pr c kid] ∧
    gap <$> calculateGaps pr [kid] rev =
      [Float64.of_int
         (Milliseconds (Sub (tr_CreationTimestamp kid) (pr_CreationTimestamp pr)))] ∧
    status <$> calculateGaps pr [kid] rev =
      [if String.eqb (Status c) ConditionFalse then FAILED else SUCCEEDED].
Proof.
  intros Hdone Hrefs Hkind Hget.
  exists (SliceStable completedAfter (List.filter hasCompletionTime [kid])).
  assert (sortTaskRunsForGapCalculations pr oc =
          ([kid], SliceStable completedAfter (List.filter hasCompletionTime [kid]), false))
    as Hsort.
  { unfold sortTaskRunsForGapCalculations. rewrite Hrefs. simpl.
    unfold isTaskRunKind. rewrite Hkind. simpl. rewrite Hget.
    unfold hasCompletionTime. by destruct (tr_CompletionTime kid). }
  split; [done|].
  assert (calculateGaps pr [kid]
            (SliceStable completedAfter (List.filter hasCompletionTime [kid])) =
          [entryFromRun pr c kid]) as ->.
  { unfold calculateGaps.
    by rewrite (calculateGaps_loop_done _ _ _ _ _ _ Hdone). }
  done.
Qed.

Lemma sample_runDone (st : string) (labels : Labels) (started : option Z)
    (kids : list string) :
  st ≠ ConditionUnknown →
  runDone (Sample.run st labels started kids) (Sample.succeeded st "").
Proof. intros Hst. split; [reflexivity|exact Hst]. Qed.



(** C5 at the run where [a'] completes after [b] was created: [b] is
    measured from the creation of the run, ten seconds before. *)
Lemma C5_parallel_measured_from_run_witness :
  calculateGaps SampleRuns.prAB [Sample.a'; Sample.b] [Sample.a'; Sample.b] !! 1%nat =
    Some (entryFromRun SampleRuns.prAB (Sample.succeeded "False" "") Sample.b) ∧
  gap (entryFromRun SampleRuns.prAB (Sample.succeeded "False" "") Sample.b) =
    Float64.of_int 10000.
Proof.
  split; [|reflexivity].
  apply (C5_parallel_measured_from_run SampleRuns.prAB SampleRuns.ocAB
           (Sample.succeeded "False" "") [Sample.a'; Sample.b] [Sample.a'; Sample.b]
           Sample.a' Sample.b 1).
  - by apply sample_runDone.
  - reflexivity.
  - reflexivity.
  - reflexivity.
  - exists (1020 * Second). split; [reflexivity|]. vm_compute. reflexivity.
Defined.

(** C6 at the failed run whose only task run is [b]. *)
Lemma C6_single_step_gap_witness :
  ∃ rev,
    sortTaskRunsForGapCalculations SampleRuns.prB SampleRuns.ocB =
      ([Sample.b], rev, false) ∧
    calculateGaps SampleRuns.prB [Sample.b] rev =
      [entryFromRun SampleRuns.prB (Sample.succeeded "False" "") Sample.b] ∧
    gap <$> calculateGaps SampleRuns.prB [Sample.b] rev = [Float64.of_int 10000] ∧
    status <$> calculateGaps SampleRuns.prB [Sample.b] rev = [FAILED].
Proof.
  apply (C6_single_step_gap SampleRuns.prB SampleRuns.ocB (Sample.succeeded "False" "")
           {| Kind := "TaskRun"; child_Name := "b" |} Sample.b).
  - by apply sample_runDone.
  - reflexivity.
  - reflexivity.
  - reflexivity.
Defined.

(** ** The noise filter *)

Lemma eqb_zero_not_positive (x : float64) :
  Float64.eqb x Float64.zero = true → Float64.gtb x Float64.zero = false.
Proof. by destruct x as [[]|[]| |[] m e]. Qed.

Lemma threshold_cases (Getenv : string → string) (ParseFloat : string → option float64) :
  threshold Getenv ParseFloat =
  if String.eqb (Getenv FILTER_THRESHOLD) ""
  then DEFAULT_THRESHOLD
  else default DEFAULT_THRESHOLD (ParseFloat (Getenv FILTER_THRESHOLD)).
Proof.
  unfold threshold, nonempty.
  destruct (String.eqb _ ""); simpl; [done|]. by destruct (ParseFloat _).
Qed.

Example filter_at_the_threshold :
  filter Sample.noenv Sample.noparse (Float64.of_int 1) (Float64.of_int 299999) = true ∧
  filter Sample.noenv Sample.noparse (Float64.of_int 1) (Float64.of_int 300000) = false ∧
  filter Sample.noenv Sample.noparse (Float64.of_int 0) (Float64.of_int 1) = false ∧
  filter Sample.noenv Sample.noparse (Float64.of_int (-5)) (Float64.of_int 1) = false.
Proof. repeat split; reflexivity. Qed.

(** C4.  The filter suppresses exactly when the gap total is greater than
    zero and the total duration is less than the threshold; a gap total
    equal to zero is never suppressed.  The threshold is 300000, the float
    5153960755200000 * 2^-34, unless FILTER_THRESHOLD is set to a string
    that parses as a number. *)
Theorem C4_noise_filter (Getenv : string → string) (ParseFloat : string → option float64)
    (numerator denominator : float64) :
  (filter Getenv ParseFloat numerator denominator = true ↔
   Float64.gtb numerator Float64.zero = true ∧
   Float64.ltb denominator (threshold Getenv ParseFloat) = true) ∧
  (Float64.eqb numerator Float64.zero = true →
   filter Getenv ParseFloat numerator denominator = false) ∧
  (DEFAULT_THRESHOLD = S754_finite false 5153960755200000 (-34) ∧
   5153960755200000 = 300000 * 2 ^ 34) ∧
  (Getenv FILTER_THRESHOLD = "" → threshold Getenv ParseFloat = DEFAULT_THRESHOLD) ∧
  (ParseFloat (Getenv FILTER_THRESHOLD) = None →
   threshold Getenv ParseFloat = DEFAULT_THRESHOLD) ∧
  (∀ v, Getenv FILTER_THRESHOLD ≠ "" → ParseFloat (Getenv FILTER_THRESHOLD) = Some v →
        threshold Getenv ParseFloat = v).
Proof.
  split; [|split; [|split; [done|]]].
  - unfold filter. rewrite <- andb_true_iff. by destruct (_ && _).
  - intros Hz. unfold filter. by rewrite (eqb_zero_not_positive _ Hz).
  - rewrite threshold_cases. split; [by intros ->|]. split.
    + intros ->. by destruct (String.eqb _ _).
    + intros v Hne%String.eqb_neq ->. by rewrite Hne.
Qed.

(** ** The throttle detector *)

Lemma isTaskRunThrottled_spec (tr : TaskRun) :
  isTaskRunThrottled tr = true ↔
  ∃ c, GetCondition ConditionSucceeded (tr_Conditions tr) = Some c ∧
       Status c = ConditionUnknown ∧
       (Reason c = ReasonExceededResourceQuota ∨
        Reason c = ReasonExceededNodeResources).
Proof.
  unfold isTaskRunThrottled.
  destruct (GetCondition _ _) as [c|]; [|split; [done|by intros (? & ? & _)]].
  destruct (String.eqb_spec (Status c) ConditionUnknown) as [Hs|Hs].
  - destruct (String.eqb_spec (Reason c) ReasonExceededResourceQuota) as [Hq|Hq].
    { split; [|done]. intros _. exists c. auto. }
    destruct (String.eqb_spec (Reason c) ReasonExceededNodeResources) as [Hn|Hn].
    { split; [|done]. intros _. exists c. auto. }
    split; [done|]. intros (c' & [= <-] & _ & [?|?]); done.
  - split; [done|]. intros (c' & [= <-] & ? & _); done.
Qed.

Lemma isPipelineRunThrottled_loop_passed (oc : Client) (ns : string)
    (pre rest : list ChildStatusReference) :
  Forall (passedOver oc ns) pre →
  isPipelineRunThrottled_loop oc ns (pre ++ rest) =
  isPipelineRunThrottled_loop oc ns rest.
Proof.
  induction 1 as [|kidRef pre Hk _ IH]; [done|]. simpl.
  destruct Hk as [Hkind|[(err & Hget & Hnf)|(kid & Hget & Hth)]].
  - by rewrite Hkind.
  - destruct (isTaskRunKind kidRef); [|done]. simpl. by rewrite Hget, Hnf.
  - destruct (isTaskRunKind kidRef); [|done]. simpl. by rewrite Hget, Hth.
Qed.

(** C9.  A task run is throttled exactly when its succeed condition is
    unknown with reason ExceededResourceQuota or ExceededNodeResources.  The
    scan of the child references of a run skips what is not a task run and
    what is not found, returns the first throttled task run it reaches, and
    returns the first error other than not found it meets before that. *)
Theorem C9_throttle_detection (pr : PipelineRun) (oc : Client)
    (pre post : list ChildStatusReference) (kidRef : ChildStatusReference) :
  Forall (passedOver oc (pr_Namespace pr)) pre →
  isTaskRunKind kidRef = true →
  (∀ tr, isTaskRunThrottled tr = true ↔
         ∃ c, GetCondition ConditionSucceeded (tr_Conditions tr) = Some c ∧
              Status c = ConditionUnknown ∧
              (Reason c = ReasonExceededResourceQuota ∨
               Reason c = ReasonExceededNodeResources)) ∧
  (pr_ChildReferences pr = pre → isPipelineRunThrottled pr oc = (false, "", None)) ∧
  (∀ kid,
     pr_ChildReferences pr = (pre ++ kidRef :: post)%list →
     GetTaskRun oc (pr_Namespace pr) (child_Name kidRef) = inr kid →
     isTaskRunThrottled kid = true →
     isPipelineRunThrottled pr oc = (true, tr_Name kid, None)) ∧
  (∀ err,
     pr_ChildReferences pr = (pre ++ kidRef :: post)%list →
     GetTaskRun oc (pr_Namespace pr) (child_Name kidRef) = inl err →
     IsNotFound err = false →
     isPipelineRunThrottled pr oc = (false, "", Some err)).
Proof.
  intros Hpre Hkind. split; [apply isTaskRunThrottled_spec|].
  unfold isPipelineRunThrottled. split; [|split].
  - intros ->. rewrite <- (app_nil_r pre).
    by rewrite isPipelineRunThrottled_loop_passed.
  - intros kid -> Hget Hth. rewrite isPipelineRunThrottled_loop_passed by done.
    simpl. by rewrite Hkind, Hget, Hth.
  - intros err -> Hget Hnf. rewrite isPipelineRunThrottled_loop_passed by done.
    simpl. by rewrite Hkind, Hget, Hnf.
Qed.

(** C9 at the running run with the references [gone], [q] and [b]: [gone]
    is not found and passed over, [q] is throttled and returned; where [b]
    comes first and times out, the error is returned instead. *)
Lemma C9_throttle_detection_witness :
  isTaskRunThrottled Sample.q = true ∧
  isPipelineRunThrottled SampleThrottle.prQ SampleThrottle.ocQ = (true, "q", None) ∧
  isPipelineRunThrottled SampleThrottle.prBQ SampleThrottle.ocBQ =
    (false, "", Some Sample.timeout).
Proof.
  split; [reflexivity|]. split.
  - destruct (C9_throttle_detection SampleThrottle.prQ SampleThrottle.ocQ
                [{| Kind := "TaskRun"; child_Name := "gone" |}]
                [{| Kind := "TaskRun"; child_Name := "b" |}]
                {| Kind := "TaskRun"; child_Name := "q" |})
      as (_ & _ & Hthrottled & _).
    + constructor; [|constructor]. right. left. by exists Sample.notFound.
    + reflexivity.
    + by apply (Hthrottled Sample.q).
  - destruct (C9_throttle_detection SampleThrottle.prBQ SampleThrottle.ocBQ
                [{| Kind := "TaskRun"; child_Name := "gone" |}]
                [{| Kind := "TaskRun"; child_Name := "q" |}]
                {| Kind := "TaskRun"; child_Name := "b" |})
      as (_ & _ & _ & Herror).
    + constructor; [|constructor]. right. left. by exists Sample.notFound.
    + reflexivity.
    + by apply (Herror Sample.timeout).
Defined.

(** ** Tagging throttled runs *)

(** The run as [tagPipelineRunsWithTaskRunsGettingThrottled] sees it after
    replacing a nil label map by an empty one. *)
Lemma tag_outcomes (pr : PipelineRun) (oc : Client) :
  patchesOf (tagPipelineRunsWithTaskRunsGettingThrottled pr oc) = [] ∨
  ∃ tr base,
    isPipelineRunThrottled pr oc = (true, tr, None) ∧
    label_lookup (pr_Labels pr) THROTTLED_LABEL = None ∧
    label_lookup (pr_Labels base) THROTTLED_LABEL = None ∧
    patchesOf (tagPipelineRunsWithTaskRunsGettingThrottled pr oc) =
      [(set_pr_Labels
          (Some (<[THROTTLED_LABEL := tr]> (default ∅ (pr_Labels base)))) base,
        base)].
Proof.
  unfold tagPipelineRunsWithTaskRunsGettingThrottled.
  destruct (isPipelineRunThrottled pr oc) as [[throttled tr] [err|]]; [by left|].
  destruct throttled; [|left; by destruct (label_lookup _ _)].
  destruct (pr_Labels pr) as [m|] eqn:Hl.
  - destruct (label_lookup (pr_Labels pr) THROTTLED_LABEL) eqn:Hlab; [by left|].
    right. exists tr, pr. rewrite Hl in *. simpl.
    destruct (Patch oc _ pr) as [err|]; [destruct (IsNotFound err)|]; done.
  - right. exists tr, (set_pr_Labels (Some ∅) pr). simpl.
    destruct (Patch oc _ _) as [err|]; [destruct (IsNotFound err)|]; done.
Qed.

(** C7.  On a run that carries the throttle label no patch is sent and the
    run is left as it was.  Whenever a patch is sent it is the only one of
    the call, the label is absent from the run and from the base of the
    patch, the changed copy carries it with the name of the throttled task
    run, and tagging the changed copy again sends nothing. *)
Theorem C7_tagging_idempotent (pr : PipelineRun) (oc : Client) (v : string) :
  label_lookup (pr_Labels pr) THROTTLED_LABEL = Some v →
  patchesOf (tagPipelineRunsWithTaskRunsGettingThrottled pr oc) = [] ∧
  runAfter (tagPipelineRunsWithTaskRunsGettingThrottled pr oc) = pr ∧
  label_lookup
    (pr_Labels (runAfter (tagPipelineRunsWithTaskRunsGettingThrottled pr oc)))
    THROTTLED_LABEL = Some v ∧
  (∀ pr0 oc0 changed base,
     (changed, base) ∈ patchesOf (tagPipelineRunsWithTaskRunsGettingThrottled pr0 oc0) →
     patchesOf (tagPipelineRunsWithTaskRunsGettingThrottled pr0 oc0) = [(changed, base)] ∧
     label_lookup (pr_Labels pr0) THROTTLED_LABEL = None ∧
     label_lookup (pr_Labels base) THROTTLED_LABEL = None ∧
     (∃ tr, isPipelineRunThrottled pr0 oc0 = (true, tr, None) ∧
            label_lookup (pr_Labels changed) THROTTLED_LABEL = Some tr) ∧
     (∀ oc1, patchesOf (tagPipelineRunsWithTaskRunsGettingThrottled changed oc1) = [])).
Proof.
  intros Hlab.
  assert (∀ pr1 oc1 v1, label_lookup (pr_Labels pr1) THROTTLED_LABEL = Some v1 →
            patchesOf (tagPipelineRunsWithTaskRunsGettingThrottled pr1 oc1) = [] ∧
            runAfter (tagPipelineRunsWithTaskRunsGettingThrottled pr1 oc1) = pr1)
    as Hlabelled.
  { intros pr1 oc1 v1 H1. unfold tagPipelineRunsWithTaskRunsGettingThrottled.
    destruct (isPipelineRunThrottled pr1 oc1) as [[throttled tr] [err|]]; [done|].
    destruct (pr_Labels pr1) as [m|] eqn:Hl; [|done].
    rewrite Hl, H1, andb_false_r. done. }
  destruct (Hlabelled pr oc v Hlab) as [Hnone Hsame].
  split; [done|]. split; [done|]. split; [by rewrite Hsame|].
  intros pr0 oc0 changed base Hin.
  destruct (tag_outcomes pr0 oc0) as [Hnil|(tr & base' & Hth & Hl0 & Hlb & Hp)].
  { rewrite Hnil in Hin. by apply elem_of_nil in Hin. }
  rewrite Hp in Hin. apply list_elem_of_singleton in Hin. injection Hin as -> ->.
  split; [done|]. split; [done|]. split; [done|].
  assert (label_lookup
            (pr_Labels
               (set_pr_Labels
                  (Some (<[THROTTLED_LABEL := tr]> (default ∅ (pr_Labels base')))) base'))
            THROTTLED_LABEL = Some tr) as Hset.
  { simpl. apply lookup_insert_eq. }
  split; [by exists tr|].
  intros oc1. by destruct (Hlabelled _ oc1 _ Hset).
Qed.

(** C7 at the labelled run whose task run [q] is throttled: nothing is sent. *)
Lemma C7_tagging_idempotent_witness :
  isPipelineRunThrottled SampleThrottle.prQlabelled SampleThrottle.ocQ =
    (true, "q", None) ∧
  patchesOf (tagPipelineRunsWithTaskRunsGettingThrottled
               SampleThrottle.prQlabelled SampleThrottle.ocQ) = [] ∧
  runAfter (tagPipelineRunsWithTaskRunsGettingThrottled
              SampleThrottle.prQlabelled SampleThrottle.ocQ) =
    SampleThrottle.prQlabelled.
Proof.
  split; [reflexivity|].
  destruct (C7_tagging_idempotent SampleThrottle.prQlabelled SampleThrottle.ocQ "q")
    as (Hnone & Hsame & _).
  - reflexivity.
  - split; [exact Hnone|exact Hsame].
Defined.

(** ** The overhead reconciler *)

Lemma fetchTaskRuns_fails (oc : Client) (ns : string)
    (refs : list ChildStatusReference) (kidRef : ChildStatusReference) (err : error) :
  kidRef ∈ refs →
  isTaskRunKind kidRef = true →
  GetTaskRun oc ns (child_Name kidRef) = inl err →
  ∀ a b, fetchTaskRuns oc ns refs a b = None.
Proof.
  intros Hin Hkind Hget.
  induction refs as [|r refs IH]; intros a b; [by apply elem_of_nil in Hin|].
  simpl. apply elem_of_cons in Hin as [<-|Hin].
  - by rewrite Hkind, Hget.
  - destruct (negb (isTaskRunKind r)); [by apply IH|].
    destruct (GetTaskRun oc ns (child_Name r)); [done|by apply IH].
Qed.

Lemma accumulateGaps_aborted (pr : PipelineRun) (oc : Client) :
  sortTaskRunsForGapCalculations pr oc = ([], [], true) →
  accumulateGaps pr oc = (Float64.of_int 0, [], false).
Proof.
  intros Hsort. unfold accumulateGaps. rewrite Hsort.
  by destruct (skipPipelineRun pr).
Qed.

Lemma ReconcileOverhead_done (Getenv : string → string)
    (ParseFloat : string → option float64) (oc : Client) (ns name : string)
    (pr : PipelineRun) (c : Condition) :
  GetPipelineRun oc ns name = inr pr →
  runDone pr c →
  ReconcileOverhead Getenv ParseFloat oc ns name =
  let '(gapTotal, gapEntries, foundGaps) := accumulateGaps pr oc in
  if foundGaps then
    match pr_CompletionTime pr, pr_StartTime pr with
    | Some completionTime, Some startTime =>
        let totalDuration :=
          Float64.of_int (Milliseconds (Sub completionTime startTime)) in
        let scheduleDuration :=
          calculateScheduledDuration (pr_CreationTimestamp pr) startTime in
        {| observed :=
             ((if negb (filter Getenv ParseFloat gapTotal totalDuration) then
                 [ {| obs_metric := execution; obs_namespace := pr_Namespace pr;
                      obs_status := statusOf c;
                      obs_value := Float64.div gapTotal totalDuration |} ]
               else []) ++
              (if negb (filter Getenv ParseFloat scheduleDuration totalDuration) then
                 [ {| obs_metric := scheduling; obs_namespace := pr_Namespace pr;
                      obs_status := statusOf c;
                      obs_value := Float64.div scheduleDuration totalDuration |} ]
               else []))%list;
           patched := [];
           outcome := Returned ({| Requeue := false |}, None) |}
    | _, _ => {| observed := []; patched := []; outcome := Panicked |}
    end
  else {| observed := []; patched := [];
          outcome := Returned ({| Requeue := false |}, None) |}.
Proof.
  intros Hget Hdone. pose proof (runDone_not_unknown _ _ Hdone) as Hu.
  destruct Hdone as [Hc _].
  unfold ReconcileOverhead. rewrite Hget, Hc, Hu. simpl negb. cbv iota.
  by destruct (accumulateGaps pr oc) as [[gapTotal gapEntries] foundGaps].
Qed.

(** C8.  When the fetch of a referenced task run fails
    during the gap computation of a done run, with whatever error, the
    computation is aborted, nothing is observed, and the reconciler returns
    no error and asks for no requeue. *)
Theorem C8_failed_fetch_aborts_silently (Getenv : string → string)
    (ParseFloat : string → option float64) (oc : Client) (ns name : string)
    (pr : PipelineRun) (c : Condition) (kidRef : ChildStatusReference) (err : error) :
  GetPipelineRun oc ns name = inr pr →
  runDone pr c →
  kidRef ∈ pr_ChildReferences pr →
  isTaskRunKind kidRef = true →
  GetTaskRun oc (pr_Namespace pr) (child_Name kidRef) = inl err →
  sortTaskRunsForGapCalculations pr oc = ([], [], true) ∧
  accumulateGaps pr oc = (Float64.of_int 0, [], false) ∧
  ReconcileOverhead Getenv ParseFloat oc ns name =
    {| observed := []; patched := [];
       outcome := Returned ({| Requeue := false |}, None) |}.
Proof.
  intros Hpr Hdone Hin Hkind Hget.
  assert (sortTaskRunsForGapCalculations pr oc = ([], [], true)) as Hsort.
  { unfold sortTaskRunsForGapCalculations.
    by rewrite (fetchTaskRuns_fails _ _ _ _ _ Hin Hkind Hget). }
  split; [done|]. split; [by apply accumulateGaps_aborted|].
  rewrite (ReconcileOverhead_done _ _ _ _ _ _ _ Hpr Hdone).
  by rewrite (accumulateGaps_aborted _ _ Hsort).
Qed.

(** C8 at the done run whose task run [b] cannot be fetched in time. *)
Lemma C8_failed_fetch_aborts_silently_witness :
  IsNotFound Sample.timeout = false ∧
  ReconcileOverhead Sample.noenv Sample.noparse SampleThrottle.ocTimeout "ns" "run" =
    {| observed := []; patched := [];
       outcome := Returned ({| Requeue := false |}, None) |}.
Proof.
  split; [reflexivity|].
  apply (C8_failed_fetch_aborts_silently Sample.noenv Sample.noparse
           SampleThrottle.ocTimeout "ns" "run" SampleThrottle.prDone
           (Sample.succeeded "True" "")
           {| Kind := "TaskRun"; child_Name := "b" |} Sample.timeout).
  - reflexivity.
  - by apply sample_runDone.
  - right. left.
  - reflexivity.
  - reflexivity.
Defined.

(** C8 as stated fails at the same run: the fetch of [b] fails with a
    timeout, which is not a not-found error, and the reconciler still
    returns without an error and without a requeue, so nothing tells the
    caller to try again. *)
Lemma C8_counterexample :
  GetTaskRun SampleThrottle.ocTimeout "ns" "b" = inl Sample.timeout ∧
  IsNotFound Sample.timeout = false ∧
  sortTaskRunsForGapCalculations SampleThrottle.prDone SampleThrottle.ocTimeout =
    ([], [], true) ∧
  outcome
    (ReconcileOverhead Sample.noenv Sample.noparse SampleThrottle.ocTimeout "ns" "run") =
    Returned ({| Requeue := false |}, None).
Proof. repeat split; reflexivity. Qed.

Lemma skipPipelineRun_spec (pr : PipelineRun) :
  skipPipelineRun pr = false ↔
  (1 ≤ List.length (pr_ChildReferences pr))%nat ∧
  is_Some (pr_CompletionTime pr) ∧
  label_lookup (pr_Labels pr) THROTTLED_LABEL = None.
Proof.
  unfold skipPipelineRun.
  destruct (Nat.ltb_spec (List.length (pr_ChildReferences pr)) 1) as [Hlt|Hge].
  { split; [done|]. intros [? _]. lia. }
  destruct (pr_CompletionTime pr) as [t|].
  - destruct (label_lookup _ _).
    + split; [done|]. by intros (_ & _ & ?).
    + split; [|done]. intros _. eauto.
  - split; [done|]. intros (_ & [? ?] & _). done.
Qed.

(** C10.  [skipPipelineRun] lets a run through exactly when it has a child
    reference, a completion time and no throttle label, and does not look at
    the start time.  A done run that it lets through and whose task runs are
    all fetched makes the reconciler panic exactly when its start time is
    nil, before anything is observed; the scheduled duration of
    the start time filter panics in the same case. *)
Theorem C10_start_time_unchecked (Getenv : string → string)
    (ParseFloat : string → option float64) (oc : Client) (ns name : string)
    (pr : PipelineRun) (c : Condition) (sorted rev : list TaskRun) :
  GetPipelineRun oc ns name = inr pr →
  runDone pr c →
  skipPipelineRun pr = false →
  sortTaskRunsForGapCalculations pr oc = (sorted, rev, false) →
  (∀ pr' s, skipPipelineRun (set_pr_StartTime s pr') = skipPipelineRun pr') ∧
  (∀ pr', skipPipelineRun pr' = false ↔
          (1 ≤ List.length (pr_ChildReferences pr'))%nat ∧
          is_Some (pr_CompletionTime pr') ∧
          label_lookup (pr_Labels pr') THROTTLED_LABEL = None) ∧
  (outcome (ReconcileOverhead Getenv ParseFloat oc ns name) = Panicked ↔
   pr_StartTime pr = None) ∧
  (pr_StartTime pr = None →
   observed (ReconcileOverhead Getenv ParseFloat oc ns name) = []) ∧
  (is_Some (pr_StartTime pr) →
   outcome (ReconcileOverhead Getenv ParseFloat oc ns name) =
     Returned ({| Requeue := false |}, None)) ∧
  (calculateScheduledDurationPipelineRun pr = Panicked ↔ pr_StartTime pr = None).
Proof.
  intros Hpr Hdone Hskip Hsort.
  split; [done|]. split; [apply skipPipelineRun_spec|].
  rewrite (ReconcileOverhead_done _ _ _ _ _ _ _ Hpr Hdone).
  unfold accumulateGaps, calculateScheduledDurationPipelineRun.
  rewrite Hskip, Hsort. simpl negb. cbv iota.
  apply skipPipelineRun_spec in Hskip as (_ & [t Ht] & _). rewrite Ht.
  destruct (pr_StartTime pr) as [s|]; simpl.
  - repeat split; try done; by intros [? ?].
  - repeat split; try done; by intros [? ?].
Qed.

(** C10 at the done run without a start time. *)
Lemma C10_start_time_unchecked_witness :
  skipPipelineRun SampleThrottle.prUnstarted = false ∧
  outcome (ReconcileOverhead Sample.noenv Sample.noparse
             SampleThrottle.ocUnstarted "ns" "run") = Panicked ∧
  calculateScheduledDurationPipelineRun SampleThrottle.prUnstarted = Panicked.
Proof.
  split; [reflexivity|].
  destruct (C10_start_time_unchecked Sample.noenv Sample.noparse
              SampleThrottle.ocUnstarted "ns" "run" SampleThrottle.prUnstarted
              (Sample.succeeded "True" "") [Sample.b] [Sample.b])
    as (_ & _ & Hpanic & _ & _ & Hsched).
  - reflexivity.
  - by apply sample_runDone.
  - reflexivity.
  - reflexivity.
  - split; [by apply Hpanic|by apply Hsched].
Defined.

(** ** The deadlock tracker *)

Section TrackerFacts.

Context {C : Type} `{PollCollector C}.

Lemma PerformDeadlockDetection_filtered (d : Deadlock.DeadlockTracker)
    (name ns : string) :
  ns ∈ Deadlock.filter d → Deadlock.PerformDeadlockDetection d name ns = d.
Proof.
  intros Hf. unfold Deadlock.PerformDeadlockDetection. by rewrite bool_decide_true.
Qed.


Lemma buildLastScanCopy_copy (innerReset : C → list string → C) (collector : C)
    (m : gmap string (gset string)) :
  snd (Deadlock.buildLastScanCopy innerReset collector m) = m.
Proof.
  unfold Deadlock.buildLastScanCopy. simpl.
  apply (map_fold_weak_ind (λ r m', r = m')); [done|].
  intros ns trMap m' r _ ->. f_equal.
  apply (set_fold_ind_L (λ r X, r = X)); [done|].
  by intros tr X r _ ->.
Qed.

End TrackerFacts.

Lemma zeroOut_lookup (g : Gauges) (lastScan currentScan : gmap string (gset string))
    (ns : string) :
  Deadlock.zeroOutPriorHitNamespacesThatAreNowEmpty g lastScan currentScan !! ns =
  if bool_decide (ns ∈ dom lastScan ∧ ns ∉ dom currentScan) then Some 0 else g !! ns.
Proof.
  unfold Deadlock.zeroOutPriorHitNamespacesThatAreNowEmpty.
  pose (P := λ (r : Gauges) (m : gmap string (gset string)),
               ∀ ns, r !! ns =
                     if bool_decide (ns ∈ dom m ∧ ns ∉ dom currentScan)
                     then Some 0 else g !! ns).
  revert ns. change (P (map_fold
                          (λ ns _ collector,
                             match currentScan !! ns with
                             | Some _ => collector
                             | None => ZeroCollector ns collector
                             end) g lastScan) lastScan).
  apply (map_fold_weak_ind P); unfold P.
  - intros ns. rewrite bool_decide_false; [done|]. set_solver.
  - intros i x m r Hi IH ns. rewrite dom_insert_L.
    destruct (currentScan !! i) as [objs|] eqn:Hcur.
    + rewrite IH. apply elem_of_dom_2 in Hcur.
      repeat case_bool_decide; try done; set_solver.
    + apply not_elem_of_dom in Hcur. change (ZeroCollector i r) with (<[i:=0]> r).
      destruct (decide (ns = i)) as [->|Hne].
      * rewrite lookup_insert_eq, bool_decide_true; [done|]. set_solver.
      * rewrite lookup_insert_ne by done. rewrite IH.
        repeat case_bool_decide; try done; set_solver.
Qed.

(** C3.  At the end of a cycle a namespace of the previous scan that the
    current scan did not meet has its gauge set to zero, is no longer
    flagged, and is not part of the scan kept for the next cycle, which is
    a copy of the current one. *)
Theorem C3_vanished_namespace_cleared (innerReset : Gauges → list string → Gauges)
    (d : Deadlock.DeadlockTracker (C := Gauges)) (ns : string) :
  ns ∈ dom (Deadlock.lastScan d) →
  ns ∉ dom (Deadlock.currentScan d) →
  Deadlock.zeroOutPriorHitNamespacesThatAreNowEmpty
    (Deadlock.collector d) (Deadlock.lastScan d) (Deadlock.currentScan d) !! ns =
    Some 0 ∧
  snd (Deadlock.buildLastScanCopy innerReset (Deadlock.collector d)
         (Deadlock.currentScan d)) = Deadlock.currentScan d ∧
  Deadlock.collector (Deadlock.endOfCycle innerReset d) !! ns = Some 0 ∧
  (ns ∉ Deadlock.flaggedNamespaces (Deadlock.endOfCycle innerReset d)) ∧
  Deadlock.lastScan (Deadlock.endOfCycle innerReset d) = Deadlock.currentScan d ∧
  (ns ∉ dom (Deadlock.lastScan (Deadlock.endOfCycle innerReset d))).
Proof.
  intros Hlast Hcur.
  pose proof (buildLastScanCopy_copy innerReset (Deadlock.collector d)
                (Deadlock.currentScan d)) as Hcopy.
  split; [by rewrite zeroOut_lookup, bool_decide_true|]. split; [done|].
  unfold Deadlock.endOfCycle.
  destruct (Deadlock.buildLastScanCopy _ _ _) as [collector1 cacheCopy].
  simpl in *. subst cacheCopy.
  split; [by rewrite zeroOut_lookup, bool_decide_true|].
  split; [set_solver|]. done.
Qed.


(** C3 at the tracker where the flagged namespace [team] was not met by the
    current scan. *)
Lemma C3_vanished_namespace_cleared_witness :
  Deadlock.collector
    (Deadlock.endOfCycle SampleTracker.zeroEach SampleTracker.vanished) !! "team" =
    Some 0 ∧
  ("team" ∉ Deadlock.flaggedNamespaces
              (Deadlock.endOfCycle SampleTracker.zeroEach SampleTracker.vanished)) ∧
  ("team" ∉ dom (Deadlock.lastScan
                   (Deadlock.endOfCycle SampleTracker.zeroEach SampleTracker.vanished))).
Proof.
  destruct (C3_vanished_namespace_cleared SampleTracker.zeroEach
              SampleTracker.vanished "team")
    as (_ & _ & Hgauge & Hflag & _ & Hdropped).
  - apply (bool_decide_unpack _). vm_compute. exact I.
  - apply (bool_decide_unpack _). vm_compute. exact I.
  - split; [exact Hgauge|]. split; [exact Hflag|exact Hdropped].
Defined.

(** * Further properties *)

(** ** The entries of [calculateGaps] *)





(** ** What [sortTaskRunsForGapCalculations] fetches and how it orders it *)

Lemma fetchTaskRuns_all_fetched (oc : Client) (ns : string)
    (refs : list ChildStatusReference) :
  (∀ kidRef, kidRef ∈ refs → ¬ fetchFails oc ns kidRef) →
  ∀ a b,
    fetchTaskRuns oc ns refs a b =
    Some ((a ++ fetchedTaskRuns oc ns refs)%list,
          (b ++ List.filter hasCompletionTime (fetchedTaskRuns oc ns refs))%list).
Proof.
  induction refs as [|kidRef refs IH]; intros Hok a b; simpl.
  - by rewrite !app_nil_r.
  - assert (∀ r, r ∈ refs → ¬ fetchFails oc ns r) as Hrest.
    { intros r Hr. apply Hok. by right. }
    pose proof (Hok kidRef (list_elem_of_here _ _)) as Hhead.
    unfold fetchFails in Hhead.
    destruct (isTaskRunKind kidRef); simpl; [|by apply IH].
    destruct (GetTaskRun oc ns (child_Name kidRef)) as [err|kid].
    { exfalso. apply Hhead. eauto. }
    rewrite (IH Hrest). simpl. unfold hasCompletionTime at 2.
    destruct (tr_CompletionTime kid); by rewrite <- !app_assoc.
Qed.

Lemma fetchFails_dec (oc : Client) (ns : string) (refs : list ChildStatusReference) :
  (∃ kidRef, kidRef ∈ refs ∧ fetchFails oc ns kidRef) ∨
  (∀ kidRef, kidRef ∈ refs → ¬ fetchFails oc ns kidRef).
Proof.
  induction refs as [|r refs [(k & Hk & Hf)|IH]].
  - right. intros k Hk. by apply elem_of_nil in Hk.
  - left. exists k. split; [by right|done].
  - destruct (isTaskRunKind r) eqn:Hkind.
    + destruct (GetTaskRun oc ns (child_Name r)) as [err|kid] eqn:Hget.
      * left. exists r. split; [left|]. split; eauto.
      * right. intros k [->|Hk]%elem_of_cons; [|by apply IH].
        intros [_ [err Herr]]. congruence.
    + right. intros k [->|Hk]%elem_of_cons; [|by apply IH].
      intros [Hk _]. congruence.
Qed.

(** X2.  [sortTaskRunsForGapCalculations] aborts exactly when the [Get]
    of some referenced task run fails, and then returns no task run at all.
    Otherwise its two lists hold the fetched task runs, every one once, and
    those of them that have a completion time; references of another kind
    are passed over. *)
Theorem sortTaskRuns_aborts_iff_a_fetch_fails (pr : PipelineRun) (oc : Client) :
  (snd (sortTaskRunsForGapCalculations pr oc) = true ↔
   ∃ kidRef, kidRef ∈ pr_ChildReferences pr ∧ fetchFails oc (pr_Namespace pr) kidRef) ∧
  (snd (sortTaskRunsForGapCalculations pr oc) = true →
   sortTaskRunsForGapCalculations pr oc = ([], [], true)) ∧
  (snd (sortTaskRunsForGapCalculations pr oc) = false →
   fst (fst (sortTaskRunsForGapCalculations pr oc)) ≡ₚ
     fetchedTaskRuns oc (pr_Namespace pr) (pr_ChildReferences pr) ∧
   snd (fst (sortTaskRunsForGapCalculations pr oc)) ≡ₚ
     List.filter hasCompletionTime
       (fetchedTaskRuns oc (pr_Namespace pr) (pr_ChildReferences pr))).
Proof.
  unfold sortTaskRunsForGapCalculations.
  destruct (fetchFails_dec oc (pr_Namespace pr) (pr_ChildReferences pr))
    as [(k & Hk & Hkind & err & Herr)|Hok].
  - rewrite (fetchTaskRuns_fails _ _ _ _ _ Hk Hkind Herr). simpl.
    split; [|done]. split; [|done]. intros _. exists k. split; [done|].
    split; eauto.
  - rewrite (fetchTaskRuns_all_fetched _ _ _ Hok). simpl.
    split; [|split; [done|]].
    + split; [done|]. intros (k & Hk & Hf). by destruct (Hok k Hk).
    + intros _. by rewrite !SliceStable_perm.
Qed.

Section Stability.

Context {A : Type} (less : A → A → bool) (key : A → Z).
Hypothesis less_key : ∀ a b, less a b = (key a <? key b).

Lemma insert_stable_filter_eq (k : Z) (x : A) (l : list A) :
  key x = k →
  List.filter (λ y, key y =? k) (insert_stable less x l) =
  x :: List.filter (λ y, key y =? k) l.
Proof.
  intros Hx. induction l as [|y l IH]; simpl.
  - by rewrite (proj2 (Z.eqb_eq _ _) Hx).
  - rewrite less_key. destruct (Z.ltb_spec (key y) (key x)) as [Hlt|Hge]; simpl.
    + rewrite IH. by rewrite (proj2 (Z.eqb_neq (key y) k)) by lia.
    + by rewrite (proj2 (Z.eqb_eq _ _) Hx).
Qed.

Lemma insert_stable_filter_ne (k : Z) (x : A) (l : list A) :
  key x ≠ k →
  List.filter (λ y, key y =? k) (insert_stable less x l) =
  List.filter (λ y, key y =? k) l.
Proof.
  intros Hx. induction l as [|y l IH]; simpl.
  - by rewrite (proj2 (Z.eqb_neq _ _) Hx).
  - destruct (less y x); simpl.
    + by rewrite IH.
    + by rewrite (proj2 (Z.eqb_neq _ _) Hx).
Qed.

(** The elements of one key come out in the order they went in. *)
Lemma SliceStable_stable (k : Z) (l : list A) :
  List.filter (λ y, key y =? k) (SliceStable less l) =
  List.filter (λ y, key y =? k) l.
Proof.
  induction l as [|x l IH]; simpl; [done|].
  destruct (Z.eqb_spec (key x) k) as [Hx|Hx].
  - by rewrite insert_stable_filter_eq, IH.
  - by rewrite insert_stable_filter_ne, IH.
Qed.

End Stability.

(** X3.  When nothing aborts, the first list is in ascending order of
    creation and the second in descending order of completion, and in both
    the task runs of one instant stay in the order of the child references
    of the run. *)
Theorem sortTaskRuns_ordered_and_stable (pr : PipelineRun) (oc : Client)
    (sorted rev : list TaskRun) :
  sortTaskRunsForGapCalculations pr oc = (sorted, rev, false) →
  StronglySorted (λ a b, tr_CreationTimestamp a ≤ tr_CreationTimestamp b) sorted ∧
  StronglySorted
    (λ a b, deref (tr_CompletionTime b) ≤ deref (tr_CompletionTime a)) rev ∧
  (∀ t, List.filter (λ tr, tr_CreationTimestamp tr =? t) sorted =
        List.filter (λ tr, tr_CreationTimestamp tr =? t)
          (fetchedTaskRuns oc (pr_Namespace pr) (pr_ChildReferences pr))) ∧
  (∀ t, List.filter (λ tr, deref (tr_CompletionTime tr) =? t) rev =
        List.filter (λ tr, deref (tr_CompletionTime tr) =? t)
          (List.filter hasCompletionTime
             (fetchedTaskRuns oc (pr_Namespace pr) (pr_ChildReferences pr)))).
Proof.
  intros Hsort.
  split; [|split; [by eapply sortTaskRuns_descending|]].
  { destruct (sortTaskRuns_result _ _ _ _ Hsort) as (kids & _ & -> & _).
    apply (SliceStable_sorted createdBefore tr_CreationTimestamp). done. }
  destruct (fetchFails_dec oc (pr_Namespace pr) (pr_ChildReferences pr))
    as [(k & Hk & Hkind & err & Herr)|Hok].
  { unfold sortTaskRunsForGapCalculations in Hsort.
    by rewrite (fetchTaskRuns_fails _ _ _ _ _ Hk Hkind Herr) in Hsort. }
  unfold sortTaskRunsForGapCalculations in Hsort.
  rewrite (fetchTaskRuns_all_fetched _ _ _ Hok) in Hsort. simpl in Hsort.
  injection Hsort as <- <-. split.
  - intros t. apply (SliceStable_stable createdBefore tr_CreationTimestamp). done.
  - intros t.
    pose proof (SliceStable_stable completedAfter
                  (λ tr, - deref (tr_CompletionTime tr))) as Hst.
    specialize (Hst (λ a b, ltac:(unfold completedAfter, After;
      destruct (Z.ltb_spec (deref (tr_CompletionTime b)) (deref (tr_CompletionTime a)));
      symmetry; [apply Z.ltb_lt|apply Z.ltb_ge]; lia)) (- t)).
    assert (∀ l : list TaskRun,
              List.filter (λ tr, deref (tr_CompletionTime tr) =? t) l =
              List.filter (λ tr, - deref (tr_CompletionTime tr) =? - t) l) as Hflip.
    { intros l. apply List.filter_ext. intros a.
      destruct (Z.eqb_spec (deref (tr_CompletionTime a)) t);
        symmetry; [apply Z.eqb_eq|apply Z.eqb_neq]; lia. }
    rewrite !Hflip. apply Hst.
Qed.

(** ** [accumulateGaps] and the reconciler *)

Lemma fold_gaps (es : list GapEntry) (z : float64) :
  List.fold_left (λ gapTotal gapEntry, Float64.add gapTotal (gap gapEntry)) es z =
  List.fold_left Float64.add (gap <$> es) z.
Proof. revert z. induction es as [|e es IH]; intros z; [done|]. apply IH. Qed.

(** X4.  [accumulateGaps] reports gaps exactly when the run is not skipped
    and every referenced task run was fetched; then its entries are those
    of [calculateGaps] on the sorted lists and its total is their sum from
    zero.  Otherwise it returns zero and no entry.  A skipped run gives the
    same answer with every client: no task run is fetched for it. *)
Theorem accumulateGaps_found_iff (pr : PipelineRun) (oc : Client) :
  snd (accumulateGaps pr oc) =
    negb (skipPipelineRun pr) && negb (snd (sortTaskRunsForGapCalculations pr oc)) ∧
  (snd (accumulateGaps pr oc) = false →
   accumulateGaps pr oc = (Float64.of_int 0, [], false)) ∧
  (snd (accumulateGaps pr oc) = true →
   snd (fst (accumulateGaps pr oc)) =
     calculateGaps pr (fst (fst (sortTaskRunsForGapCalculations pr oc)))
       (snd (fst (sortTaskRunsForGapCalculations pr oc))) ∧
   fst (fst (accumulateGaps pr oc)) =
     List.fold_left Float64.add (gap <$> snd (fst (accumulateGaps pr oc)))
       (Float64.of_int 0)) ∧
  (∀ oc', skipPipelineRun pr = true → accumulateGaps pr oc' = accumulateGaps pr oc).
Proof.
  unfold accumulateGaps.
  destruct (skipPipelineRun pr); simpl; [done|].
  split; [|split; [|split; [|done]]].
  - by destruct (sortTaskRunsForGapCalculations pr oc) as [[sorted rev] []].
  - by destruct (sortTaskRunsForGapCalculations pr oc) as [[sorted rev] []].
  - destruct (sortTaskRunsForGapCalculations pr oc) as [[sorted rev] []]; [done|].
    intros _. split; [done|]. apply fold_gaps.
Qed.

Lemma IsDone_runDone (pr : PipelineRun) :
  IsDone (pr_Conditions pr) = true ↔ ∃ c, runDone pr c.
Proof.
  unfold IsDone, runDone. destruct (GetCondition _ _) as [c|]; simpl.
  - rewrite negb_true_iff, String.eqb_neq. split; [eauto|].
    by intros (c' & [= <-] & ?).
  - split; [done|]. by intros (c' & ? & _).
Qed.

(** X5.  A done run that [skipPipelineRun] turns away, for want of child
    references or of a completion time or because it carries the throttle
    label, is reconciled without observation, patch, error or requeue,
    whatever its start time and whatever the client answers for its task
    runs. *)
Theorem ReconcileOverhead_skipped_run_is_quiet (Getenv : string → string)
    (ParseFloat : string → option float64) (oc : Client) (ns name : string)
    (pr : PipelineRun) :
  GetPipelineRun oc ns name = inr pr →
  IsDone (pr_Conditions pr) = true →
  skipPipelineRun pr = true →
  ReconcileOverhead Getenv ParseFloat oc ns name =
    {| observed := []; patched := [];
       outcome := Returned ({| Requeue := false |}, None) |}.
Proof.
  intros Hget [c Hdone]%IsDone_runDone Hskip.
  rewrite (ReconcileOverhead_done _ _ _ _ _ _ _ Hget Hdone).
  unfold accumulateGaps. by rewrite Hskip.
Qed.

(** X6.  A done run that is not skipped and has no task run among its
    children has a gap total of zero, which the filter never suppresses:
    with a start time, an execution overhead of zero over the total duration
    is observed whatever the threshold. *)
Theorem ReconcileOverhead_without_task_runs (Getenv : string → string)
    (ParseFloat : string → option float64) (oc : Client) (ns name : string)
    (pr : PipelineRun) (c : Condition) (completionTime startTime : Time) :
  GetPipelineRun oc ns name = inr pr →
  runDone pr c →
  skipPipelineRun pr = false →
  isPipelineRunGoing pr = false →
  pr_CompletionTime pr = Some completionTime →
  pr_StartTime pr = Some startTime →
  accumulateGaps pr oc = (Float64.of_int 0, [], true) ∧
  {| obs_metric := execution; obs_namespace := pr_Namespace pr;
     obs_status := statusOf c;
     obs_value :=
       Float64.div (Float64.of_int 0)
         (Float64.of_int (Milliseconds (Sub completionTime startTime))) |}
    ∈ observed (ReconcileOverhead Getenv ParseFloat oc ns name) ∧
  outcome (ReconcileOverhead Getenv ParseFloat oc ns name) =
    Returned ({| Requeue := false |}, None).
Proof.
  intros Hget Hdone Hskip Hgoing Hc Hs.
  assert (∀ a b, fetchTaskRuns oc (pr_Namespace pr) (pr_ChildReferences pr) a b =
                 Some (a, b)) as Hfetch.
  { unfold isPipelineRunGoing in Hgoing.
    induction (pr_ChildReferences pr) as [|r refs IH]; intros a b; [done|].
    simpl in *. apply orb_false_iff in Hgoing as [Hr Hrest].
    rewrite Hr. simpl. by apply IH. }
  assert (accumulateGaps pr oc = (Float64.of_int 0, [], true)) as Hacc.
  { unfold accumulateGaps, sortTaskRunsForGapCalculations.
    by rewrite Hskip, Hfetch. }
  split; [done|].
  rewrite (ReconcileOverhead_done _ _ _ _ _ _ _ Hget Hdone), Hacc, Hc, Hs.
  cbv beta iota zeta. split; [|done].
  assert (filter Getenv ParseFloat (Float64.of_int 0)
            (Float64.of_int (Milliseconds (Sub completionTime startTime))) = false)
    as -> by done.
  apply elem_of_app. left. left.
Qed.

Lemma ReconcileOverhead_not_done (Getenv : string → string)
    (ParseFloat : string → option float64) (oc : Client) (ns name : string)
    (pr : PipelineRun) :
  GetPipelineRun oc ns name = inr pr →
  IsDone (pr_Conditions pr) = false →
  ReconcileOverhead Getenv ParseFloat oc ns name =
  if negb (isPipelineRunGoing pr)
  then {| observed := []; patched := [];
          outcome := Returned ({| Requeue := true |}, None) |}
  else {| observed := [];
          patched := patchesOf (tagPipelineRunsWithTaskRunsGettingThrottled pr oc);
          outcome :=
            Returned ({| Requeue := false |},
                      snd (tagPipelineRunsWithTaskRunsGettingThrottled pr oc)) |}.
Proof.
  intros Hget Hnot. unfold ReconcileOverhead, IsDone in *. rewrite Hget.
  apply negb_false_iff in Hnot.
  assert (match GetCondition ConditionSucceeded (pr_Conditions pr) with
          | Some _ => negb (IsUnknown (GetCondition ConditionSucceeded (pr_Conditions pr)))
          | None => false
          end = false) as ->.
  { destruct (GetCondition _ _); [|done]. by rewrite Hnot. }
  destruct (negb (isPipelineRunGoing pr)); [done|].
  by destruct (tagPipelineRunsWithTaskRunsGettingThrottled pr oc) as [[pr' patches] err].
Qed.

Lemma tag_at_most_one_patch (pr : PipelineRun) (oc : Client) :
  (List.length (patchesOf (tagPipelineRunsWithTaskRunsGettingThrottled pr oc)) ≤ 1)%nat.
Proof.
  destruct (tag_outcomes pr oc) as [->|(tr & base & _ & _ & _ & ->)]; simpl; lia.
Qed.

(** X7.  Whatever the client answers, one reconciliation never both
    observes and patches; it sends at most one patch and observes at most
    one value per histogram, each for a done run and labelled with its
    namespace and status; a panic or a requeue comes with no observation
    and no patch. *)
Theorem ReconcileOverhead_effects (Getenv : string → string)
    (ParseFloat : string → option float64) (oc : Client) (ns name : string) :
  (observed (ReconcileOverhead Getenv ParseFloat oc ns name) = [] ∨
   patched (ReconcileOverhead Getenv ParseFloat oc ns name) = []) ∧
  (List.length (patched (ReconcileOverhead Getenv ParseFloat oc ns name)) ≤ 1)%nat ∧
  NoDup (obs_metric <$> observed (ReconcileOverhead Getenv ParseFloat oc ns name)) ∧
  (∀ o, o ∈ observed (ReconcileOverhead Getenv ParseFloat oc ns name) →
        ∃ pr c, GetPipelineRun oc ns name = inr pr ∧ runDone pr c ∧
                obs_namespace o = pr_Namespace pr ∧ obs_status o = statusOf c) ∧
  (outcome (ReconcileOverhead Getenv ParseFloat oc ns name) = Panicked →
   observed (ReconcileOverhead Getenv ParseFloat oc ns name) = [] ∧
   patched (ReconcileOverhead Getenv ParseFloat oc ns name) = []) ∧
  (∀ e, outcome (ReconcileOverhead Getenv ParseFloat oc ns name) =
          Returned ({| Requeue := true |}, e) →
        e = None ∧
        observed (ReconcileOverhead Getenv ParseFloat oc ns name) = [] ∧
        patched (ReconcileOverhead Getenv ParseFloat oc ns name) = []).
Proof.
  destruct (GetPipelineRun oc ns name) as [err|pr] eqn:Hget.
  { unfold ReconcileOverhead. rewrite Hget.
    destruct (negb (IsNotFound err)); simpl;
      (split; [by left|]); (split; [lia|]); (split; [constructor|]);
      (split; [by intros o ?%elem_of_nil|]); done. }
  destruct (IsDone (pr_Conditions pr)) eqn:Hisdone.
  - apply IsDone_runDone in Hisdone as [c Hdone].
    rewrite (ReconcileOverhead_done _ _ _ _ _ _ _ Hget Hdone).
    destruct (accumulateGaps pr oc) as [[gapTotal gapEntries] []]; cycle 1.
    { simpl. split; [by left|]. split; [lia|]. split; [constructor|].
      split; [by intros o ?%elem_of_nil|]. done. }
    destruct (pr_CompletionTime pr) as [completionTime|],
             (pr_StartTime pr) as [startTime|];
      try (simpl; split; [by left|]; split; [lia|]; split; [constructor|];
           split; [by intros o ?%elem_of_nil|]; done).
    cbv beta iota zeta. simpl patched. simpl outcome. simpl observed.
    split; [by right|]. split; [simpl; lia|]. split; [|split; [|done]].
    + destruct (negb (filter _ _ gapTotal _)), (negb (filter _ _ _ _)); simpl;
        repeat constructor; set_solver.
    + intros o Ho. exists pr, c. split; [done|]. split; [done|].
      destruct (negb (filter _ _ gapTotal _)), (negb (filter _ _ _ _));
        simpl in Ho; set_solver.
  - rewrite (ReconcileOverhead_not_done _ _ _ _ _ _ Hget Hisdone).
    destruct (negb (isPipelineRunGoing pr)); simpl.
    + split; [by left|]. split; [lia|]. split; [constructor|].
      split; [by intros o ?%elem_of_nil|]. split; [done|].
      by intros e [= <-].
    + split; [by left|]. split; [apply tag_at_most_one_patch|].
      split; [constructor|]. split; [by intros o ?%elem_of_nil|]. done.
Qed.

(** X8.  For a run that is not done and has a task run among its children
    the reconciler observes nothing and does what the tagging does.  An
    error of the scan for a throttled task run is returned and nothing is
    patched.  A throttled task run of an unlabelled run leads to one patch
    whose changed copy differs from its base by the throttle label only,
    set to the name of that task run; of the errors of the patch only a
    not-found one is returned.  Otherwise nothing is patched. *)
Theorem ReconcileOverhead_running_run (Getenv : string → string)
    (ParseFloat : string → option float64) (oc : Client) (ns name : string)
    (pr : PipelineRun) :
  GetPipelineRun oc ns name = inr pr →
  IsDone (pr_Conditions pr) = false →
  isPipelineRunGoing pr = true →
  observed (ReconcileOverhead Getenv ParseFloat oc ns name) = [] ∧
  (∀ e, snd (isPipelineRunThrottled pr oc) = Some e →
        patched (ReconcileOverhead Getenv ParseFloat oc ns name) = [] ∧
        outcome (ReconcileOverhead Getenv ParseFloat oc ns name) =
          Returned ({| Requeue := false |}, Some e)) ∧
  (∀ tr, isPipelineRunThrottled pr oc = (true, tr, None) →
         label_lookup (pr_Labels pr) THROTTLED_LABEL = None →
         ∃ base,
           (base = pr ∨ (pr_Labels pr = None ∧ base = set_pr_Labels (Some ∅) pr)) ∧
           patched (ReconcileOverhead Getenv ParseFloat oc ns name) =
             [(set_pr_Labels
                 (Some (<[THROTTLED_LABEL := tr]> (default ∅ (pr_Labels base)))) base,
               base)] ∧
           outcome (ReconcileOverhead Getenv ParseFloat oc ns name) =
             Returned
               ({| Requeue := false |},
                match Patch oc
                        (set_pr_Labels
                           (Some (<[THROTTLED_LABEL := tr]> (default ∅ (pr_Labels base))))
                           base) base with
                | Some err => if IsNotFound err then Some err else None
                | None => None
                end)) ∧
  (∀ throttled tr, isPipelineRunThrottled pr oc = (throttled, tr, None) →
                   throttled = false ∨
                   is_Some (label_lookup (pr_Labels pr) THROTTLED_LABEL) →
                   patched (ReconcileOverhead Getenv ParseFloat oc ns name) = [] ∧
                   outcome (ReconcileOverhead Getenv ParseFloat oc ns name) =
                     Returned ({| Requeue := false |}, None)).
Proof.
  intros Hget Hnot Hgoing.
  rewrite (ReconcileOverhead_not_done _ _ _ _ _ _ Hget Hnot), Hgoing. simpl.
  split; [done|]. unfold tagPipelineRunsWithTaskRunsGettingThrottled.
  split; [|split].
  - intros e He. destruct (isPipelineRunThrottled pr oc) as [[th tr] err].
    simpl in He. by subst err.
  - intros tr -> Hlab. destruct (pr_Labels pr) as [m|] eqn:Hl.
    + exists pr. split; [by left|]. rewrite Hl in *. rewrite Hlab. simpl.
      destruct (Patch oc _ pr) as [err|]; [destruct (IsNotFound err)|]; done.
    + exists (set_pr_Labels (Some ∅) pr). split; [by right|]. simpl.
      destruct (Patch oc _ _) as [err|]; [destruct (IsNotFound err)|]; done.
  - intros throttled tr -> [->|[v Hv]]; simpl.
    + done.
    + destruct (pr_Labels pr) as [m|] eqn:Hl; [|done].
      by rewrite Hl, Hv, andb_false_r.
Qed.

(** X9.  A run that cannot be read is not reconciled: a not-found error is
    dropped and any other error is returned.  A run that is not done and
    has no task run among its children is requeued. *)
Theorem ReconcileOverhead_unreadable_or_unstarted (Getenv : string → string)
    (ParseFloat : string → option float64) (oc : Client) (ns name : string) :
  (∀ err, GetPipelineRun oc ns name = inl err →
          ReconcileOverhead Getenv ParseFloat oc ns name =
            {| observed := []; patched := [];
               outcome :=
                 Returned ({| Requeue := false |},
                           if IsNotFound err then None else Some err) |}) ∧
  (∀ pr, GetPipelineRun oc ns name = inr pr →
         IsDone (pr_Conditions pr) = false →
         isPipelineRunGoing pr = false →
         ReconcileOverhead Getenv ParseFloat oc ns name =
           {| observed := []; patched := [];
              outcome := Returned ({| Requeue := true |}, None) |}) ∧
  (∀ pr, GetPipelineRun oc ns name = inr pr →
         Requeue
           (match outcome (ReconcileOverhead Getenv ParseFloat oc ns name) with
            | Returned (res, _) => res
            | Panicked => {| Requeue := false |}
            end) = true →
         IsDone (pr_Conditions pr) = false ∧ isPipelineRunGoing pr = false).
Proof.
  split; [|split].
  - intros err Hget. unfold ReconcileOverhead. rewrite Hget.
    by destruct (IsNotFound err).
  - intros pr Hget Hnot Hgoing.
    by rewrite (ReconcileOverhead_not_done _ _ _ _ _ _ Hget Hnot), Hgoing.
  - intros pr Hget.
    destruct (IsDone (pr_Conditions pr)) eqn:Hisdone.
    + apply IsDone_runDone in Hisdone as [c Hdone].
      rewrite (ReconcileOverhead_done _ _ _ _ _ _ _ Hget Hdone).
      destruct (accumulateGaps pr oc) as [[gapTotal gapEntries] []]; [|done].
      by destruct (pr_CompletionTime pr), (pr_StartTime pr).
    + rewrite (ReconcileOverhead_not_done _ _ _ _ _ _ Hget Hisdone).
      by destruct (isPipelineRunGoing pr).
Qed.

(** ** The event filters *)

Lemma isPipelineRunThrottled_true_no_error (pr : PipelineRun) (oc : Client) :
  fst (fst (isPipelineRunThrottled pr oc)) = true →
  ∃ tr, isPipelineRunThrottled pr oc = (true, tr, None).
Proof.
  unfold isPipelineRunThrottled.
  induction (pr_ChildReferences pr) as [|r refs IH]; simpl; [done|].
  destruct (negb (isTaskRunKind r)); [done|].
  destruct (GetTaskRun oc (pr_Namespace pr) (child_Name r)) as [err|kid].
  - destruct (negb (IsNotFound err)); [done|]. simpl. done.
  - destruct (isTaskRunThrottled kid); [eauto|done].
Qed.

(** X10.  [overheadGapEventFilter.Update] lets an update through exactly
    when both objects are pipeline runs, the new one carries no throttle
    label, and either it has just become done, or it is not done and has a
    throttled task run or no task run at all among its children. *)
Theorem overheadGapEventFilter_Update_true_iff (oc : Client) (ObjectOld ObjectNew : Object) :
  overheadGapEventFilter_Update oc ObjectOld ObjectNew = true ↔
  ∃ oldPR newPR,
    ObjectOld = ObjPipelineRun oldPR ∧ ObjectNew = ObjPipelineRun newPR ∧
    label_lookup (pr_Labels newPR) THROTTLED_LABEL = None ∧
    ((IsDone (pr_Conditions oldPR) = false ∧ IsDone (pr_Conditions newPR) = true) ∨
     (IsDone (pr_Conditions newPR) = false ∧
      (fst (fst (isPipelineRunThrottled newPR oc)) = true ∨
       isPipelineRunGoing newPR = false))).
Proof.
  unfold overheadGapEventFilter_Update.
  destruct ObjectOld as [oldPR| |], ObjectNew as [newPR| |];
    try (split; [done|]; by intros (? & ? & ? & ? & _)).
  destruct (label_lookup (pr_Labels newPR) THROTTLED_LABEL) eqn:Hlab.
  { split; [done|]. intros (? & ? & _ & [= <-] & Hnone & _). congruence. }
  destruct (IsDone (pr_Conditions oldPR)) eqn:Hold,
           (IsDone (pr_Conditions newPR)) eqn:Hnew; simpl.
  - split; [done|]. intros (? & ? & [= <-] & [= <-] & _ & [[? _]|[? _]]); congruence.
  - destruct (isPipelineRunThrottled newPR oc) as [[th tr] err] eqn:Hth. simpl.
    destruct th; simpl.
    + split; [|done]. intros _. exists oldPR, newPR. rewrite Hnew, ?Hth, ?Hgo.
      repeat (split; [done|]). right. split; [done|]. by left.
    + destruct (isPipelineRunGoing newPR) eqn:Hgo; simpl.
      * split; [done|].
        intros (? & ? & [= <-] & [= <-] & _ & [[? _]|[_ [Ht|?]]]);
          [congruence|rewrite Hth in Ht; done|congruence].
      * split; [|done]. intros _. exists oldPR, newPR. rewrite Hnew, ?Hth, ?Hgo.
        repeat (split; [done|]). right. split; [done|]. by right.
  - split; [|done]. intros _. exists oldPR, newPR. rewrite Hold, Hnew.
    repeat (split; [done|]). by left.
  - destruct (isPipelineRunThrottled newPR oc) as [[th tr] err] eqn:Hth. simpl.
    destruct th; simpl.
    + split; [|done]. intros _. exists oldPR, newPR. rewrite Hnew, ?Hth, ?Hgo.
      repeat (split; [done|]). right. split; [done|]. by left.
    + destruct (isPipelineRunGoing newPR) eqn:Hgo; simpl.
      * split; [done|].
        intros (? & ? & [= <-] & [= <-] & _ & [[? ?]|[_ [Ht|?]]]);
          [congruence|rewrite Hth in Ht; done|congruence].
      * split; [|done]. intros _. exists oldPR, newPR. rewrite Hnew, ?Hth, ?Hgo.
        repeat (split; [done|]). right. split; [done|]. by right.
Qed.

Lemma overheadGapEventFilter_Update_true (oc : Client) (ObjectOld : Object)
    (newPR : PipelineRun) :
  overheadGapEventFilter_Update oc ObjectOld (ObjPipelineRun newPR) = true →
  label_lookup (pr_Labels newPR) THROTTLED_LABEL = None ∧
  (IsDone (pr_Conditions newPR) = true ∨
   (IsDone (pr_Conditions newPR) = false ∧
    (fst (fst (isPipelineRunThrottled newPR oc)) = true ∨
     isPipelineRunGoing newPR = false))).
Proof.
  unfold overheadGapEventFilter_Update.
  destruct ObjectOld as [oldPR| |]; try done.
  destruct (label_lookup (pr_Labels newPR) THROTTLED_LABEL); [done|].
  intros Hup. split; [done|].
  destruct (IsDone (pr_Conditions newPR)) eqn:Hnew; [by left|].
  right. split; [done|]. rewrite !andb_false_r in Hup.
  destruct (isPipelineRunThrottled newPR oc) as [[th tr] err]. simpl.
  destruct th; [by left|]. right. by destruct (isPipelineRunGoing newPR).
Qed.

(** X11.  Every update the filter lets through is acted upon when the run
    read by the reconciler is the new object: the run carries no throttle
    label, so the label test of [skipPipelineRun] cannot be what skips it;
    and if it is not done, the reconciler either requeues it, when it has no
    task run yet, or sends the one patch that sets the throttle label to the
    throttled task run. *)
Theorem filtered_update_is_acted_upon (Getenv : string → string)
    (ParseFloat : string → option float64) (oc : Client) (ns name : string)
    (ObjectOld : Object) (newPR : PipelineRun) :
  overheadGapEventFilter_Update oc ObjectOld (ObjPipelineRun newPR) = true →
  GetPipelineRun oc ns name = inr newPR →
  label_lookup (pr_Labels newPR) THROTTLED_LABEL = None ∧
  (skipPipelineRun newPR = true ↔
   pr_ChildReferences newPR = [] ∨ pr_CompletionTime newPR = None) ∧
  (IsDone (pr_Conditions newPR) = false →
   (isPipelineRunGoing newPR = false ∧
    ReconcileOverhead Getenv ParseFloat oc ns name =
      {| observed := []; patched := [];
         outcome := Returned ({| Requeue := true |}, None) |}) ∨
   (isPipelineRunGoing newPR = true ∧
    ∃ tr changed base,
      isPipelineRunThrottled newPR oc = (true, tr, None) ∧
      patched (ReconcileOverhead Getenv ParseFloat oc ns name) = [(changed, base)] ∧
      label_lookup (pr_Labels base) THROTTLED_LABEL = None ∧
      label_lookup (pr_Labels changed) THROTTLED_LABEL = Some tr)).
Proof.
  intros [Hlab Hcases]%overheadGapEventFilter_Update_true Hget.
  split; [done|]. split.
  { unfold skipPipelineRun. rewrite Hlab.
    destruct (pr_ChildReferences newPR) as [|r refs]; simpl; [naive_solver|].
    destruct (pr_CompletionTime newPR); naive_solver. }
  intros Hnot. destruct Hcases as [Hdone|[_ Hact]]; [congruence|].
  destruct (isPipelineRunGoing newPR) eqn:Hgoing.
  - right. split; [done|]. destruct Hact as [Hth|?]; [|done].
    destruct (isPipelineRunThrottled_true_no_error _ _ Hth) as [tr Htr].
    rewrite (ReconcileOverhead_not_done _ _ _ _ _ _ Hget Hnot), Hgoing. simpl.
    destruct (tag_outcomes newPR oc) as [Hnil|(tr' & base & Hth' & _ & Hb & Hp)].
    + exfalso. revert Hnil. unfold tagPipelineRunsWithTaskRunsGettingThrottled.
      rewrite Htr. destruct (pr_Labels newPR) as [m|] eqn:Hl.
      * rewrite Hl, Hlab. simpl.
        by destruct (Patch oc _ _) as [err|]; [destruct (IsNotFound err)|].
      * simpl. by destruct (Patch oc _ _) as [err|]; [destruct (IsNotFound err)|].
    + rewrite Htr in Hth'. injection Hth' as <-.
      eexists tr, _, base. split; [done|]. split; [exact Hp|]. split; [done|].
      simpl. apply lookup_insert_eq.
  - left. split; [done|].
    by rewrite (ReconcileOverhead_not_done _ _ _ _ _ _ Hget Hnot), Hgoing.
Qed.

Lemma becomesDone_dec (ObjectOld ObjectNew : Object) :
  (∃ newPR, becomesDone ObjectOld ObjectNew newPR) ∨
  (∀ newPR, ¬ becomesDone ObjectOld ObjectNew newPR).
Proof.
  destruct ObjectOld as [oldPR| |], ObjectNew as [newPR| |];
    try (right; by intros ? (? & ? & ? & _)).
  destruct (IsDone (pr_Conditions oldPR)) eqn:Hold;
    [right; intros ? (? & [= <-] & _ & ? & _); congruence|].
  destruct (IsDone (pr_Conditions newPR)) eqn:Hnew;
    [|right; intros ? (? & _ & [= <-] & _ & ?); congruence].
  left. exists newPR, oldPR. done.
Qed.

(** X12.  [startTimeEventFilter.Update] never asks for a reconciliation.
    When a pipeline run becomes done it observes one value, the time from
    creation to start in seconds, labelled with the namespace and with
    [failed] or [succeded], and panics if the run has no start time; in
    every other case it observes nothing. *)
Theorem startTimeEventFilter_Update_observes_once (ObjectOld ObjectNew : Object) :
  (∀ b observed, startTimeEventFilter_Update ObjectOld ObjectNew = Returned (b, observed) →
                 b = false ∧ (List.length observed ≤ 1)%nat) ∧
  (∀ newPR, becomesDone ObjectOld ObjectNew newPR →
            startTimeEventFilter_Update ObjectOld ObjectNew =
            match pr_StartTime newPR with
            | None => Panicked
            | Some startTime =>
                Returned
                  (false,
                   [ {| sampled_labels :=
                          {[ NS_LABEL := pr_Namespace newPR;
                             STATUS_LABEL :=
                               if IsFalse (GetCondition ConditionSucceeded
                                             (pr_Conditions newPR))
                               then FAILED else SUCCEEDED ]};
                        sampled_value :=
                          Float64.div
                            (calculateScheduledDuration
                               (pr_CreationTimestamp newPR) startTime)
                            (Float64.of_int 1000) |} ])
            end) ∧
  ((∀ newPR, ¬ becomesDone ObjectOld ObjectNew newPR) →
   startTimeEventFilter_Update ObjectOld ObjectNew = Returned (false, [])).
Proof.
  assert (∀ newPR, becomesDone ObjectOld ObjectNew newPR →
            startTimeEventFilter_Update ObjectOld ObjectNew =
            match calculateScheduledDurationPipelineRun newPR with
            | Panicked => Panicked
            | Returned v => Returned (false, [bumpPipelineRunScheduledDuration v newPR])
            end) as Hdone.
  { intros newPR (oldPR & -> & -> & Hold & Hnew). simpl. by rewrite Hold, Hnew. }
  assert ((∀ newPR, ¬ becomesDone ObjectOld ObjectNew newPR) →
          startTimeEventFilter_Update ObjectOld ObjectNew = Returned (false, []))
    as Hnot.
  { intros Hno. destruct ObjectOld as [oldPR| |], ObjectNew as [newPR| |]; try done.
    simpl. destruct (negb (IsDone (pr_Conditions oldPR)) && IsDone (pr_Conditions newPR))
      eqn:Hb; [|done].
    apply andb_true_iff in Hb as [Hold%negb_true_iff Hnew].
    destruct (Hno newPR). by exists oldPR. }
  split; [|split; [|done]].
  - intros b observed Hret.
    destruct (becomesDone_dec ObjectOld ObjectNew) as [[newPR Hb]|Hno].
    + rewrite (Hdone _ Hb) in Hret.
      destruct (calculateScheduledDurationPipelineRun newPR); [|done].
      injection Hret as <- <-. simpl. split; [done|lia].
    + rewrite (Hnot Hno) in Hret. injection Hret as <- <-. simpl. split; [done|lia].
  - intros newPR Hb. rewrite (Hdone _ Hb).
    unfold calculateScheduledDurationPipelineRun.
    by destruct (pr_StartTime newPR).
Qed.

(** X13.  The two reference resolution filters never ask for a
    reconciliation and observe at most one value per update, the same one up
    to the reason that means resolving: zero when an object without a
    reference becomes done, and, while the new object is not done, the time
    between the last transitions of the old and the new succeed condition in
    milliseconds when the reason was resolving and no longer is.  Nothing is
    observed for an object that is no pipeline run, respectively task run,
    or for a new object without a succeed condition. *)
Theorem waitTimeFilters_Update_observe (ObjectOld ObjectNew : option WaitingRun) :
  pipelineRefWaitTimeFilter_Update ObjectOld ObjectNew =
    (false, waitObserved ReasonResolvingPipelineRef ObjectOld ObjectNew) ∧
  taskRefWaitTimeFilter_Update ObjectOld ObjectNew =
    (false, waitObserved TaskRunReasonResolvingTaskRef ObjectOld ObjectNew) ∧
  (∀ resolving,
     (List.length (waitObserved resolving ObjectOld ObjectNew) ≤ 1)%nat ∧
     ∀ s, s ∈ waitObserved resolving ObjectOld ObjectNew →
          ∃ new, ObjectNew = Some new ∧
                 sampled_labels s = {[ NS_LABEL := wr_Namespace new ]} ∧
                 is_Some (GetTimedCondition ConditionSucceeded (wr_Conditions new))).
Proof.
  split; [|split].
  - unfold pipelineRefWaitTimeFilter_Update, waitObserved.
    destruct ObjectOld as [old|], ObjectNew as [new|]; try done.
    destruct (GetTimedCondition ConditionSucceeded (wr_Conditions new)); [|done].
    destruct (wr_IsDone new), (wr_IsDone old); simpl; try done;
      try (by destruct (wr_Ref new));
      (destruct (GetTimedCondition ConditionSucceeded (wr_Conditions old)); [|done]);
      by destruct (_ && _).
  - unfold taskRefWaitTimeFilter_Update, waitObserved.
    destruct ObjectOld as [old|], ObjectNew as [new|]; try done.
    destruct (GetTimedCondition ConditionSucceeded (wr_Conditions new)); [|done].
    destruct (wr_IsDone new), (wr_IsDone old); simpl; try done;
      try (by destruct (wr_Ref new));
      (destruct (GetTimedCondition ConditionSucceeded (wr_Conditions old)); [|done]);
      by destruct (_ && _).
  - intros resolving. unfold waitObserved.
    destruct ObjectOld as [old|], ObjectNew as [new|];
      try (split; [simpl; lia|by intros s ?%elem_of_nil]).
    destruct (GetTimedCondition ConditionSucceeded (wr_Conditions new)) as [nc|] eqn:Hnc;
      [|split; [simpl; lia|by intros s ?%elem_of_nil]].
    assert (∀ v s, s ∈ [waitSample new v] →
              ∃ new0, Some new = Some new0 ∧
                      sampled_labels s = {[ NS_LABEL := wr_Namespace new0 ]} ∧
                      is_Some (GetTimedCondition ConditionSucceeded
                                 (wr_Conditions new0))) as Hone.
    { intros v s ->%list_elem_of_singleton. exists new. rewrite Hnc. eauto. }
    destruct (wr_IsDone new).
    + destruct (_ && _); (split; [simpl; lia|]); [apply Hone|by intros s ?%elem_of_nil].
    + destruct (GetTimedCondition ConditionSucceeded (wr_Conditions old));
        [|split; [simpl; lia|by intros s ?%elem_of_nil]].
      destruct (_ && _); (split; [simpl; lia|]); [apply Hone|by intros s ?%elem_of_nil].
Qed.

(** ** Settings read from the environment *)

Lemma existsb_eqb_elem_of (v : string) (l : list string) :
  List.existsb (String.eqb v) l = true ↔ v ∈ l.
Proof.
  induction l as [|x l IH]; simpl.
  - split; [done|]. by intros ?%elem_of_nil.
  - rewrite orb_true_iff, IH, elem_of_cons, String.eqb_eq. done.
Qed.

(** X14.  An optional metric is off exactly when its variable is unset or
    empty or is one of the six spellings that [ParseBool] reads as false;
    any other value switches it on. *)
Theorem optionalMetricEnabled_false_iff (Getenv : string → string) (envVarName : string) :
  optionalMetricEnabled Getenv envVarName = false ↔
  Getenv envVarName ∈ [""; "0"; "f"; "F"; "false"; "FALSE"; "False"].
Proof.
  unfold optionalMetricEnabled, nonempty, GoStrconv.ParseBool.
  generalize (Getenv envVarName). intros v. split.
  - destruct (String.eqb_spec v "") as [->|Hne]; simpl negb; cbv iota; [by left|].
    intros Hoff. right.
    destruct (List.existsb (String.eqb v) ["1"; "t"; "T"; "true"; "TRUE"; "True"]);
      [done|].
    destruct (List.existsb (String.eqb v) ["0"; "f"; "F"; "false"; "FALSE"; "False"])
      eqn:Hfalse; [|done].
    by apply existsb_eqb_elem_of.
  - intros Hin.
    repeat (apply elem_of_cons in Hin as [->|Hin]; [reflexivity|]).
    by apply elem_of_nil in Hin.
Qed.

Lemma Split_nonempty (c : Ascii.ascii) (s : string) :
  ∃ piece pieces, Split c s = piece :: pieces.
Proof.
  induction s as [|a s (piece & pieces & IH)]; simpl; [eauto|].
  destruct (Ascii.eqb a c); [eauto|]. rewrite IH. eauto.
Qed.

Lemma Split_without_separator (c : Ascii.ascii) (s : string) :
  occurs c s = false → Split c s = [s].
Proof.
  induction s as [|a s IH]; simpl; [done|].
  intros [Ha Hs]%orb_false_iff. rewrite Ha. by rewrite (IH Hs).
Qed.

Lemma Split_app (c : Ascii.ascii) (a b : string) :
  Split c (a ++ String c b)%string = (Split c a ++ Split c b)%list.
Proof.
  induction a as [|x a IH]; simpl.
  - by rewrite Ascii.eqb_refl.
  - destruct (Ascii.eqb x c); [by rewrite IH|].
    rewrite IH. by destruct (Split_nonempty c a) as (piece & pieces & ->).
Qed.

Lemma Split_concat (names : list string) :
  names ≠ [] →
  Forall (λ ns, occurs comma ns = false) names →
  Split comma (String.concat "," names) = names.
Proof.
  induction names as [|x names IH]; [done|]. intros _ Hfree.
  apply Forall_cons in Hfree as [Hx Hrest].
  destruct names as [|y names].
  - simpl. by apply Split_without_separator.
  - change (String.concat "," (x :: y :: names))
      with (x ++ String comma (String.concat "," (y :: names)))%string.
    rewrite Split_app, IH by done. by rewrite Split_without_separator.
Qed.

Lemma fold_left_union (l : list string) (acc : gset string) :
  List.fold_left (λ namespaceFilter ns, {[ns]} ∪ namespaceFilter) l acc =
  list_to_set l ∪ acc.
Proof.
  revert acc. induction l as [|x l IH]; intros acc; simpl.
  - set_solver.
  - rewrite IH. set_solver.
Qed.

(** X15.  When a filter variable holds namespaces joined by commas, the
    filter holds exactly these namespaces; each of the two filters reads its
    own variable.  With the variable unset this is the list of the empty
    name alone: the filter then holds the empty string and nothing else. *)
Theorem namespace_filters_hold_the_listed_namespaces (Getenv : string → string)
    (names : list string) :
  names ≠ [] →
  Forall (λ ns, occurs comma ns = false) names →
  (Getenv PodCreateFilterEnvName = String.concat "," names →
   ∀ ns, ns ∈ podCreateNameSpaceFilter Getenv ↔ ns ∈ names) ∧
  (Getenv PipelineRunKickoffFilterEnvName = String.concat "," names →
   ∀ ns, ns ∈ pipelineRunKickoffNameSpaceFilter Getenv ↔ ns ∈ names).
Proof.
  intros Hne Hfree.
  unfold podCreateNameSpaceFilter, pipelineRunKickoffNameSpaceFilter.
  split; intros -> ns; rewrite fold_left_union, Split_concat by done; set_solver.
Qed.

(** X15 at an environment that lists two namespaces for the pod creation
    filter. *)
Lemma namespace_filters_hold_the_listed_namespaces_witness :
  "default" ∈ podCreateNameSpaceFilter SampleEnv.env ∧
  ("build" ∉ podCreateNameSpaceFilter SampleEnv.env) ∧
  "build" ∈ pipelineRunKickoffNameSpaceFilter SampleEnv.env ∧
  "" ∈ podCreateNameSpaceFilter Sample.noenv.
Proof.
  destruct (namespace_filters_hold_the_listed_namespaces SampleEnv.env
              ["tekton-ci"; "default"]) as [Hpod _]; [done|by repeat constructor|].
  destruct (namespace_filters_hold_the_listed_namespaces SampleEnv.env ["build"])
    as [_ Hkick]; [done|by repeat constructor|].
  destruct (namespace_filters_hold_the_listed_namespaces Sample.noenv [""])
    as [Hunset _]; [done|by repeat constructor|].
  split; [apply Hpod; [reflexivity|]; right; left|].
  split.
  - intros Hin. apply Hpod in Hin; [|reflexivity].
    apply elem_of_cons in Hin as [Hin|Hin]; [discriminate|].
    apply list_elem_of_singleton in Hin. discriminate.
  - split; [apply Hkick; [reflexivity|left]|apply Hunset; [reflexivity|left]].
Defined.

(** ** Names taken from labels *)

Lemma taskRef_firstLabel (labels : Labels) :
  taskRef labels = firstLabel labels taskRefKeys.
Proof. reflexivity. Qed.

Lemma pipelineRef_firstLabel (labels : Labels) :
  pipelineRef labels = firstLabel labels pipelineRefKeys.
Proof. reflexivity. Qed.

Lemma firstLabel_facts (labels : Labels) (keys : list string) :
  (firstLabel labels keys ≠ "" →
   ∃ k, k ∈ keys ∧ label_lookup labels k = Some (firstLabel labels keys)) ∧
  (firstLabel labels keys = "" ↔ ∀ k, k ∈ keys → label_get labels k = "") ∧
  (∀ pre k post, keys = (pre ++ k :: post)%list →
                 (∀ k', k' ∈ pre → label_get labels k' = "") →
                 label_get labels k ≠ "" →
                 firstLabel labels keys = label_get labels k).
Proof.
  split; [|split].
  - induction keys as [|k keys IH]; simpl; [done|].
    unfold nonempty. destruct (String.eqb_spec (label_get labels k) "") as [He|Hne]; simpl.
    + intros (k' & Hk' & Hl)%IH. exists k'. split; [by right|done].
    + intros _. exists k. split; [left|]. unfold label_get in *.
      by destruct (label_lookup labels k).
  - induction keys as [|k keys IH]; simpl.
    + split; [|done]. by intros _ k ?%elem_of_nil.
    + unfold nonempty. destruct (String.eqb_spec (label_get labels k) "") as [He|Hne]; simpl.
      * rewrite IH. split.
        -- intros Hall k' [->|Hk']%elem_of_cons; [done|by apply Hall].
        -- intros Hall k' Hk'. apply Hall. by right.
      * split; [done|]. intros Hall. destruct Hne. apply Hall. left.
  - intros pre k post -> Hpre Hk. induction pre as [|k' pre IH]; simpl.
    + unfold nonempty. by rewrite (proj2 (String.eqb_neq _ _) Hk).
    + unfold nonempty. rewrite (Hpre k' (list_elem_of_here _ _)). simpl.
      apply IH. intros k'' Hk''. apply Hpre. by right.
Qed.

Lemma firstLabel_frame (m : gmap string string) (keys : list string) (k v : string) :
  k ∉ keys →
  firstLabel (Some (<[k := v]> m)) keys = firstLabel (Some m) keys.
Proof.
  induction keys as [|k' keys IH]; simpl; [done|].
  intros [Hne Hrest]%not_elem_of_cons.
  assert (label_get (Some (<[k := v]> m)) k' = label_get (Some m) k') as ->.
  { unfold label_get. simpl. by rewrite lookup_insert_ne. }
  by rewrite IH.
Qed.

(** X16.  [taskRef] gives the first non-empty value among the labels task,
    pipelineTask, clusterTask and taskRun, in this order, and [pipelineRef]
    among pipeline and pipelineRun; both give the empty string exactly when
    all of them are missing or empty, as for a nil map, and neither is
    changed by a label under another key. *)
Theorem label_references_follow_the_key_order (labels : Labels) :
  (taskRef labels ≠ "" →
   ∃ k, k ∈ taskRefKeys ∧ label_lookup labels k = Some (taskRef labels)) ∧
  (taskRef labels = "" ↔ ∀ k, k ∈ taskRefKeys → label_get labels k = "") ∧
  (∀ pre k post, taskRefKeys = (pre ++ k :: post)%list →
                 (∀ k', k' ∈ pre → label_get labels k' = "") →
                 label_get labels k ≠ "" →
                 taskRef labels = label_get labels k) ∧
  (pipelineRef labels ≠ "" →
   ∃ k, k ∈ pipelineRefKeys ∧ label_lookup labels k = Some (pipelineRef labels)) ∧
  (pipelineRef labels = "" ↔ ∀ k, k ∈ pipelineRefKeys → label_get labels k = "") ∧
  (∀ pre k post, pipelineRefKeys = (pre ++ k :: post)%list →
                 (∀ k', k' ∈ pre → label_get labels k' = "") →
                 label_get labels k ≠ "" →
                 pipelineRef labels = label_get labels k) ∧
  taskRef None = "" ∧ pipelineRef None = "" ∧
  (∀ m k v, k ∉ taskRefKeys →
            taskRef (Some (<[k := v]> m)) = taskRef (Some m)) ∧
  (∀ m k v, k ∉ pipelineRefKeys →
            pipelineRef (Some (<[k := v]> m)) = pipelineRef (Some m)).
Proof.
  rewrite taskRef_firstLabel, pipelineRef_firstLabel.
  destruct (firstLabel_facts labels taskRefKeys) as (Ht1 & Ht2 & Ht3).
  destruct (firstLabel_facts labels pipelineRefKeys) as (Hp1 & Hp2 & Hp3).
  split; [exact Ht1|]. split; [exact Ht2|]. split; [exact Ht3|].
  split; [exact Hp1|]. split; [exact Hp2|]. split; [exact Hp3|].
  split; [reflexivity|]. split; [reflexivity|]. split.
  - intros m k v Hk. rewrite !taskRef_firstLabel. by apply firstLabel_frame.
  - intros m k v Hk. rewrite !pipelineRef_firstLabel. by apply firstLabel_frame.
Qed.

(** X17.  The pipeline reference of a run does not depend on the name of
    the run as soon as the run has a pipeline reference or a generate name:
    with a reference it is the name of the reference, or else the value of
    the first parameter whose name is [name] once white space is trimmed, or
    else empty; without one it is the generate name, and the name of the run
    only when that is empty too. *)
Theorem pipelineRunPipelineRef_ignores_run_name (pr : PipelineRun) :
  (∀ n, is_Some (pr_PipelineRef pr) ∨ pr_GenerateName pr ≠ "" →
        pipelineRunPipelineRef (set_pr_Name n pr) = pipelineRunPipelineRef pr) ∧
  (∀ ref, pr_PipelineRef pr = Some ref → ref_Name ref ≠ "" →
          pipelineRunPipelineRef pr = ref_Name ref) ∧
  (∀ ref pre p post,
     pr_PipelineRef pr = Some ref → ref_Name ref = "" →
     ref_Params ref = (pre ++ p :: post)%list →
     Forall (λ q, GoStrings.TrimSpace (param_Name q) ≠ "name") pre →
     GoStrings.TrimSpace (param_Name p) = "name" →
     pipelineRunPipelineRef pr = param_StringVal p) ∧
  (∀ ref, pr_PipelineRef pr = Some ref → ref_Name ref = "" →
          Forall (λ q, GoStrings.TrimSpace (param_Name q) ≠ "name") (ref_Params ref) →
          pipelineRunPipelineRef pr = "") ∧
  (pr_PipelineRef pr = None →
   pipelineRunPipelineRef pr =
     if String.eqb (pr_GenerateName pr) "" then pr_Name pr else pr_GenerateName pr).
Proof.
  unfold pipelineRunPipelineRef, nonempty. split; [|split; [|split; [|split]]].
  - intros n [[ref Href]|Hgen]; simpl.
    + by rewrite Href.
    + destruct (pr_PipelineRef pr); [done|].
      by rewrite (proj2 (String.eqb_neq _ _) Hgen).
  - intros ref -> Hname. by rewrite (proj2 (String.eqb_neq _ _) Hname).
  - intros ref pre p post -> -> -> Hpre Hp. simpl.
    induction Hpre as [|q pre Hq _ IH]; simpl.
    + by rewrite Hp.
    + by rewrite (proj2 (String.eqb_neq _ _) Hq).
  - intros ref -> -> Hall. simpl.
    induction Hall as [|q ps Hq _ IH]; simpl; [done|].
    by rewrite (proj2 (String.eqb_neq _ _) Hq).
  - intros ->. by destruct (String.eqb (pr_GenerateName pr) "").
Qed.

(** ** More on the deadlock tracker *)

Section TrackerFrame.

Context {C : Type} `{PollCollector C}.

(** X18.  A poll never changes the filter, the previous scan or the
    detector; it leaves the current scan of every other namespace alone,
    never removes an object from the current scan, and never removes a
    flag: the only namespace it can flag is the polled one.  For a filtered
    namespace it changes nothing at all; any other polled namespace is part
    of the current scan afterwards, whether the object fails or not. *)
Theorem PerformDeadlockDetection_frame (d : Deadlock.DeadlockTracker) (name ns : string) :
  Deadlock.filter (Deadlock.PerformDeadlockDetection d name ns) = Deadlock.filter d ∧
  Deadlock.lastScan (Deadlock.PerformDeadlockDetection d name ns) = Deadlock.lastScan d ∧
  Deadlock.deadlocked (Deadlock.PerformDeadlockDetection d name ns) =
    Deadlock.deadlocked d ∧
  (∀ ns', ns' ≠ ns →
          Deadlock.currentScan (Deadlock.PerformDeadlockDetection d name ns) !! ns' =
          Deadlock.currentScan d !! ns') ∧
  (∀ ns' n, n ∈ default ∅ (Deadlock.currentScan d !! ns') →
            n ∈ default ∅ (Deadlock.currentScan
                             (Deadlock.PerformDeadlockDetection d name ns) !! ns')) ∧
  Deadlock.flaggedNamespaces d ⊆
    Deadlock.flaggedNamespaces (Deadlock.PerformDeadlockDetection d name ns) ∧
  Deadlock.flaggedNamespaces (Deadlock.PerformDeadlockDetection d name ns) ⊆
    {[ns]} ∪ Deadlock.flaggedNamespaces d ∧
  (ns ∈ Deadlock.filter d → Deadlock.PerformDeadlockDetection d name ns = d) ∧
  (ns ∉ Deadlock.filter d →
   ns ∈ dom (Deadlock.currentScan (Deadlock.PerformDeadlockDetection d name ns))).
Proof.
  unfold Deadlock.PerformDeadlockDetection.
  destruct (bool_decide (ns ∈ Deadlock.filter d)) eqn:Hf.
  { apply bool_decide_eq_true in Hf.
    do 5 (split; [done|]). split; [set_solver|]. split; [set_solver|].
    split; [done|]. by intros ?. }
  apply bool_decide_eq_false in Hf.
  destruct (Deadlock.deadlocked d tt);
    [destruct (bool_decide (name ∈ default ∅ (Deadlock.lastScan d !! ns)))|]; simpl;
    (split; [done|]); (split; [done|]); (split; [done|]); (split; [|split]).
  all: try (intros ns' Hne; by rewrite !lookup_insert_ne by done).
  all: try (intros ns' n Hn; destruct (decide (ns' = ns)) as [->|Hne];
            [rewrite lookup_insert_eq; simpl; set_solver
            |by rewrite !lookup_insert_ne by done]).
  all: split; [set_solver|]; split; [set_solver|]; split; [done|];
       intros _; rewrite !dom_insert_L; set_solver.
Qed.

(** When every namespace of the previous scan is in the current scan, the
    end-of-cycle zeroing calls the collector for nothing. *)
Lemma zeroOut_nothing_vanished (collector : C)
    (lastScan currentScan : gmap string (gset string)) :
  dom lastScan ⊆ dom currentScan →
  Deadlock.zeroOutPriorHitNamespacesThatAreNowEmpty collector lastScan currentScan =
  collector.
Proof.
  unfold Deadlock.zeroOutPriorHitNamespacesThatAreNowEmpty.
  pose (P := λ (r : C) (m : gmap string (gset string)),
               dom m ⊆ dom currentScan → r = collector).
  change (P (map_fold
               (λ ns _ collector,
                  match currentScan !! ns with
                  | Some _ => collector
                  | None => ZeroCollector ns collector
                  end) collector lastScan) lastScan).
  apply (map_fold_weak_ind P); unfold P; [done|].
  intros i x m r Hi IH Hsub. rewrite dom_insert_L in Hsub.
  assert (i ∈ dom currentScan) as [objs ->]%elem_of_dom by set_solver.
  apply IH. set_solver.
Qed.

(** X21.  [buildLastScanCopy] returns a map equal to the one it is given
    and hands [innerReset] every namespace of that map exactly once. *)
Theorem buildLastScanCopy_copies_and_resets (innerReset : C → list string → C)
    (collector : C) (m : gmap string (gset string)) :
  snd (Deadlock.buildLastScanCopy innerReset collector m) = m ∧
  ∃ keys,
    fst (Deadlock.buildLastScanCopy innerReset collector m) = innerReset collector keys ∧
    NoDup keys ∧
    ∀ ns, ns ∈ keys ↔ ns ∈ dom m.
Proof.
  split; [apply buildLastScanCopy_copy|].
  exists (map_to_list m).*1. split; [done|]. split.
  - apply NoDup_fst_map_to_list.
  - intros ns. rewrite elem_of_dom, list_elem_of_fmap. split.
    + intros ([k v] & -> & Hkv%elem_of_map_to_list). eauto.
    + intros [v Hv]. exists (ns, v). split; [done|]. by apply elem_of_map_to_list.
Qed.

End TrackerFrame.

(** X20.  The end-of-cycle zeroing changes the gauge of no namespace but
    those of the previous scan that the current scan did not meet, and
    doing it twice is the same as doing it once; when no namespace vanished
    it leaves the gauges as they are. *)
Theorem zeroOut_frame (g : Gauges) (lastScan currentScan : gmap string (gset string)) :
  (∀ ns, ns ∉ dom lastScan ∨ ns ∈ dom currentScan →
         Deadlock.zeroOutPriorHitNamespacesThatAreNowEmpty g lastScan currentScan !! ns =
         g !! ns) ∧
  Deadlock.zeroOutPriorHitNamespacesThatAreNowEmpty
    (Deadlock.zeroOutPriorHitNamespacesThatAreNowEmpty g lastScan currentScan)
    lastScan currentScan =
  Deadlock.zeroOutPriorHitNamespacesThatAreNowEmpty g lastScan currentScan ∧
  (dom lastScan ⊆ dom currentScan →
   Deadlock.zeroOutPriorHitNamespacesThatAreNowEmpty g lastScan currentScan = g).
Proof.
  split; [|split].
  - intros ns Hns. rewrite zeroOut_lookup, bool_decide_false; [done|]. tauto.
  - apply map_eq. intros ns. rewrite !zeroOut_lookup. by case_bool_decide.
  - apply zeroOut_nothing_vanished.
Qed.

(** ** A pass over one namespace *)

Lemma poll_step (d : Deadlock.DeadlockTracker (C := Gauges)) (ns name : string)
    (stuck : bool) :
  ns ∉ Deadlock.filter d →
  Deadlock.filter (Deadlock.PerformDeadlockDetection (setDeadlocked stuck d) name ns) =
    Deadlock.filter d ∧
  Deadlock.lastScan (Deadlock.PerformDeadlockDetection (setDeadlocked stuck d) name ns) =
    Deadlock.lastScan d ∧
  Deadlock.flaggedNamespaces
    (Deadlock.PerformDeadlockDetection (setDeadlocked stuck d) name ns) =
    (if stuckAgain (Deadlock.lastScan d) ns (name, stuck)
     then {[ns]} ∪ Deadlock.flaggedNamespaces d
     else Deadlock.flaggedNamespaces d) ∧
  default 0 (Deadlock.collector
               (Deadlock.PerformDeadlockDetection (setDeadlocked stuck d) name ns)
             !! ns) =
    (if stuckAgain (Deadlock.lastScan d) ns (name, stuck)
     then default 0 (Deadlock.collector d !! ns) + 1
     else if bool_decide (ns ∈ Deadlock.flaggedNamespaces d)
          then default 0 (Deadlock.collector d !! ns)
          else 0).
Proof.
  intros Hf. unfold Deadlock.PerformDeadlockDetection, stuckAgain. simpl.
  rewrite (bool_decide_false _ Hf).
  destruct stuck; simpl.
  - destruct (bool_decide (name ∈ default ∅ (Deadlock.lastScan d !! ns))); simpl.
    + rewrite bool_decide_true by set_solver.
      repeat (split; [done|]). by rewrite lookup_insert_eq.
    + repeat (split; [done|]). case_bool_decide; [done|]. by rewrite lookup_insert_eq.
  - repeat (split; [done|]). case_bool_decide; [done|]. by rewrite lookup_insert_eq.
Qed.

Lemma pollAll_gauge (ns : string) (objs : list (string * bool)) :
  ∀ d : Deadlock.DeadlockTracker (C := Gauges),
    ns ∉ Deadlock.filter d →
    (ns ∉ Deadlock.flaggedNamespaces d → default 0 (Deadlock.collector d !! ns) = 0) →
    default 0 (Deadlock.collector (pollAll d ns objs) !! ns) =
      default 0 (Deadlock.collector d !! ns) +
      Z.of_nat (List.length (List.filter (stuckAgain (Deadlock.lastScan d) ns) objs)) ∧
    (ns ∈ Deadlock.flaggedNamespaces (pollAll d ns objs) ↔
     ns ∈ Deadlock.flaggedNamespaces d ∨
     (0 < List.length (List.filter (stuckAgain (Deadlock.lastScan d) ns) objs))%nat).
Proof.
  induction objs as [|[name stuck] objs IH]; intros d Hf Hzero.
  - simpl. split; [lia|]. split; [by left|]. intros [?|?]; [done|lia].
  - destruct (poll_step d ns name stuck Hf) as (Hfilter & Hlast & Hflag & Hgauge).
    change (pollAll d ns ((name, stuck) :: objs))
      with (pollAll (Deadlock.PerformDeadlockDetection (setDeadlocked stuck d) name ns)
              ns objs).
    destruct (IH (Deadlock.PerformDeadlockDetection (setDeadlocked stuck d) name ns))
      as [Hg Hfl].
    { by rewrite Hfilter. }
    { rewrite Hflag, Hgauge.
      destruct (stuckAgain _ _ _); [set_solver|].
      intros Hnf. by rewrite bool_decide_false. }
    rewrite Hg, Hfl, Hlast, Hflag, Hgauge. simpl List.filter.
    destruct (stuckAgain (Deadlock.lastScan d) ns (name, stuck)); simpl.
    + split; [lia|]. split; [intros _; right; lia|set_solver].
    + case_bool_decide as Hin; [done|]. rewrite (Hzero Hin). done.
Qed.

(** X19.  Over a pass on the objects of one unfiltered namespace that
    starts with the namespace not flagged and its gauge at zero, the gauge
    ends at the number of objects that fail and were in the previous scan,
    and the namespace ends flagged exactly when there is such an object. *)
Theorem pollAll_gauge_counts_stuck_objects (d : Deadlock.DeadlockTracker (C := Gauges))
    (ns : string) (objs : list (string * bool)) :
  ns ∉ Deadlock.filter d →
  ns ∉ Deadlock.flaggedNamespaces d →
  default 0 (Deadlock.collector d !! ns) = 0 →
  default 0 (Deadlock.collector (pollAll d ns objs) !! ns) =
    Z.of_nat (List.length (List.filter (stuckAgain (Deadlock.lastScan d) ns) objs)) ∧
  (ns ∈ Deadlock.flaggedNamespaces (pollAll d ns objs) ↔
   ∃ name, (name, true) ∈ objs ∧ name ∈ default ∅ (Deadlock.lastScan d !! ns)).
Proof.
  intros Hf Hnf Hz.
  destruct (pollAll_gauge ns objs d Hf (λ _, Hz)) as [Hg Hfl].
  split; [rewrite Hg, Hz; lia|].
  rewrite Hfl. split.
  - intros [?|Hpos]; [done|].
    destruct (List.filter _ objs) as [|[name stuck] l] eqn:Hfilter; [simpl in Hpos; lia|].
    assert ((name, stuck) ∈ List.filter (stuckAgain (Deadlock.lastScan d) ns) objs) as Hin
      by (rewrite Hfilter; left).
    apply list_elem_of_In, List.filter_In in Hin as [Hin Hst].
    unfold stuckAgain in Hst. simpl in Hst.
    apply andb_true_iff in Hst as [-> Hlast%bool_decide_eq_true].
    exists name. split; [by apply list_elem_of_In|done].
  - intros (name & Hin & Hlast). right.
    assert ((name, true) ∈ List.filter (stuckAgain (Deadlock.lastScan d) ns) objs) as Hin'.
    { apply list_elem_of_In, List.filter_In. split; [by apply list_elem_of_In|].
      unfold stuckAgain. simpl. by apply bool_decide_eq_true. }
    destruct (List.filter _ objs); [by apply elem_of_nil in Hin'|simpl; lia].
Qed.

(** ** Keys of task runs *)

Lemma append_slash_inj (a b c d : string) :
  occurs slash a = false → occurs slash c = false →
  (a ++ "/" ++ b)%string = (c ++ "/" ++ d)%string → a = c ∧ b = d.
Proof.
  assert (∀ s, ("" ++ s)%string = s) as Hnil by done.
  assert (∀ x s t, (String x s ++ t)%string = String x (s ++ t)%string) as Hcons by done.
  revert c. induction a as [|x a IH]; intros c Ha Hc Heq; destruct c as [|y c];
    rewrite ?Hnil, ?Hcons in Heq; rewrite ?Hnil in Heq; cbn in Ha, Hc.
  - by injection Heq as ->.
  - injection Heq as Hy _. subst y. by cbn in Hc.
  - injection Heq as Hx _. subst x. by cbn in Ha.
  - injection Heq as Hx Heq. subst y.
    apply orb_false_iff in Ha as [_ Ha]. apply orb_false_iff in Hc as [_ Hc].
    by destruct (IH c Ha Hc Heq) as [-> ->].
Qed.

(** X22.  [getKey] tells task runs apart: two task runs whose namespaces
    hold no slash have the same key only if they have the same namespace
    and the same name. *)
Theorem getKey_injective (tr1 tr2 : TaskRun) :
  occurs slash (tr_Namespace tr1) = false →
  occurs slash (tr_Namespace tr2) = false →
  getKey tr1 = getKey tr2 →
  tr_Namespace tr1 = tr_Namespace tr2 ∧ tr_Name tr1 = tr_Name tr2.
Proof. intros H1 H2 Heq. by apply append_slash_inj. Qed.

(** ** The further properties at sample objects *)

(** X3 at the run whose task runs [b2] and [b] share their instants: both
    lists keep [b2] before [b], the order of the references. *)
Lemma sortTaskRuns_ordered_and_stable_witness :
  sortTaskRunsForGapCalculations SampleMore.prTie SampleMore.ocTie =
    ([Sample.a; SampleMore.b2; Sample.b], [SampleMore.b2; Sample.b], false) ∧
  List.filter (λ tr, tr_CreationTimestamp tr =? 1010 * Second)
    [Sample.a; SampleMore.b2; Sample.b] = [SampleMore.b2; Sample.b].
Proof.
  split; [reflexivity|].
  destruct (sortTaskRuns_ordered_and_stable SampleMore.prTie SampleMore.ocTie
              [Sample.a; SampleMore.b2; Sample.b] [SampleMore.b2; Sample.b])
    as (_ & _ & Hcreated & _); [reflexivity|].
  rewrite Hcreated. reflexivity.
Defined.

(** X5 at the labelled done run without start time. *)
Lemma ReconcileOverhead_skipped_run_is_quiet_witness :
  pr_StartTime SampleMore.prLabelled = None ∧
  ReconcileOverhead Sample.noenv Sample.noparse SampleMore.ocLabelled "ns" "run" =
    {| observed := []; patched := [];
       outcome := Returned ({| Requeue := false |}, None) |}.
Proof.
  split; [reflexivity|].
  apply (ReconcileOverhead_skipped_run_is_quiet Sample.noenv Sample.noparse
           SampleMore.ocLabelled "ns" "run" SampleMore.prLabelled); reflexivity.
Defined.

(** X6 at the done run whose only child is a custom run: an execution
    overhead of zero over 355 seconds is observed. *)
Lemma ReconcileOverhead_without_task_runs_witness :
  {| obs_metric := execution; obs_namespace := "ns"; obs_status := SUCCEEDED;
     obs_value := Float64.div (Float64.of_int 0) (Float64.of_int 355000) |}
    ∈ observed (ReconcileOverhead Sample.noenv Sample.noparse
                  SampleMore.ocCustom "ns" "run").
Proof.
  destruct (ReconcileOverhead_without_task_runs Sample.noenv Sample.noparse
              SampleMore.ocCustom "ns" "run" SampleMore.prCustom
              (Sample.succeeded "True" "") (1360 * Second) (1005 * Second))
    as (_ & Hobserved & _).
  - reflexivity.
  - split; [reflexivity|discriminate].
  - reflexivity.
  - reflexivity.
  - reflexivity.
  - reflexivity.
  - exact Hobserved.
Defined.

(** X8 at the running run whose task run [q] waits for quota: the label map
    was nil, the base of the patch has an empty one and the changed copy
    the throttle label with value [q]. *)
Lemma ReconcileOverhead_running_run_witness :
  patched (ReconcileOverhead Sample.noenv Sample.noparse SampleThrottle.ocQ "ns" "run") =
    [(set_pr_Labels (Some {[ THROTTLED_LABEL := "q" ]}) SampleThrottle.prQ,
      set_pr_Labels (Some ∅) SampleThrottle.prQ)] ∧
  outcome (ReconcileOverhead Sample.noenv Sample.noparse SampleThrottle.ocQ "ns" "run") =
    Returned ({| Requeue := false |}, None).
Proof.
  destruct (ReconcileOverhead_running_run Sample.noenv Sample.noparse
              SampleThrottle.ocQ "ns" "run" SampleThrottle.prQ)
    as (_ & _ & Hpatch & _); [reflexivity|reflexivity|reflexivity|].
  destruct (Hpatch "q") as (base & [->|[_ ->]] & Hp & Ho); [reflexivity|reflexivity| |].
  - exfalso.
    apply (f_equal (λ l, match l with [(_, b)] => pr_Labels b | _ => None end)) in Hp.
    vm_compute in Hp. discriminate Hp.
  - split; [exact Hp|exact Ho].
Defined.

(** X11 at the same run, for an update that leaves it running. *)
Lemma filtered_update_is_acted_upon_witness :
  overheadGapEventFilter_Update SampleThrottle.ocQ
    (ObjPipelineRun SampleThrottle.prQ) (ObjPipelineRun SampleThrottle.prQ) = true ∧
  ∃ changed base,
    patched (ReconcileOverhead Sample.noenv Sample.noparse SampleThrottle.ocQ "ns" "run") =
      [(changed, base)] ∧
    label_lookup (pr_Labels changed) THROTTLED_LABEL = Some "q".
Proof.
  split; [reflexivity|].
  destruct (filtered_update_is_acted_upon Sample.noenv Sample.noparse
              SampleThrottle.ocQ "ns" "run" (ObjPipelineRun SampleThrottle.prQ)
              SampleThrottle.prQ) as (_ & _ & Hact); [reflexivity|reflexivity|].
  destruct Hact as [[Hgoing _]|(_ & tr & changed & base & Hth & Hp & _ & Hlab)];
    [reflexivity|discriminate|].
  exists changed, base. split; [exact Hp|].
  injection Hth as <-. exact Hlab.
Defined.

(** X19 at the tracker where [run-1] of [team] was in the previous scan:
    of the three objects of the pass only [run-1] fails again. *)
Lemma pollAll_gauge_counts_stuck_objects_witness :
  default 0 (Deadlock.collector
               (pollAll SampleTracker.stuck "team" SampleMore.pass) !! "team") = 1 ∧
  "team" ∈ Deadlock.flaggedNamespaces
             (pollAll SampleTracker.stuck "team" SampleMore.pass).
Proof.
  destruct (pollAll_gauge_counts_stuck_objects SampleTracker.stuck "team" SampleMore.pass)
    as [Hgauge Hflag].
  - apply (bool_decide_unpack _). vm_compute. exact I.
  - apply (bool_decide_unpack _). vm_compute. exact I.
  - reflexivity.
  - split.
    + rewrite Hgauge. reflexivity.
    + apply Hflag. exists "run-1". split; [left|].
      apply (bool_decide_unpack _). vm_compute. exact I.
Defined.

(** X22 at two task runs called [a] in namespace [ns]. *)
Lemma getKey_injective_witness :
  getKey Sample.a = getKey Sample.a' ∧
  tr_Namespace Sample.a = tr_Namespace Sample.a' ∧
  tr_Name Sample.a = tr_Name Sample.a'.
Proof.
  split; [reflexivity|].
  apply (getKey_injective Sample.a Sample.a'); reflexivity.
Defined.
